(** * claude-server helper scripts: a shallow embedding and its properties

    The repository ships three stand-alone Python scripts next to the batch
    server:

    - [validate-image-e2e-test.py], the static pattern auditor ([Auditor]);
    - [test-image-analysis.py], the synthetic image generator and validator
      ([ImageScript]);
    - [debug-auth-test.py], the authentication probe ([AuthProbe]).

    Each script is a straight-line sequence of library calls, prints and
    early exits.  The scripts are embedded as programs of a small
    state/trace/exception monad ([Py.M]): the state is the part of the
    outside world the script can change (the file system), the trace records
    what the script prints and which library calls it issues, and the outcome
    is either a returned value or a raised Python exception.  Library
    functions whose behaviour is not part of the repository (the regular
    expression engine, Pillow's codecs, the HTTP server) are parameters of the
    model; a concrete regular-expression engine for the syntax the patterns
    use ([AsciiRe]) is supplied to run the auditor on concrete files. *)

From Stdlib Require Import ZArith List String Ascii DecimalString Lia Bool.
From Stdlib Require Import Floats.SpecFloat.
From stdpp Require Import base gmap strings.

Set Warnings "-register-all".

Open Scope string_scope.
Open Scope Z_scope.

(* ================================================================== *)
(** * Python runtime fragment shared by the three scripts *)
(* ================================================================== *)

Module Py.

(** The exception classes the modelled calls can raise.  [SystemExit] is
    the only one that does not derive from [Exception]. *)
Inductive exn : Type :=
| SystemExit (code : Z)
| OSError (msg : string)
| ValueError (msg : string)
| TypeError (msg : string)
| AttributeError (msg : string)
| RequestException (msg : string).

(** [isinstance(e, Exception)] *)
Definition is_Exception (e : exn) : bool :=
  match e with
  | SystemExit _ => false
  | _ => true
  end.

(** [str(e)] *)
Definition str_exn (e : exn) : string :=
  match e with
  | SystemExit code => NilZero.string_of_int (Z.to_int code)
  | OSError msg | ValueError msg | TypeError msg
  | AttributeError msg | RequestException msg => msg
  end.

(** What a script leaves in its trace: a printed line, or a call to a
    library whose arguments matter to the properties below. *)
Inductive event (C : Type) : Type :=
| Print (line : string)
| Call (c : C).
Arguments Print {C} line.
Arguments Call {C} c.

Inductive outcome (A : Type) : Type :=
| Returns (a : A)
| Raises (e : exn).
Arguments Returns {A} a.
Arguments Raises {A} e.

(** A computation over a state [St] that emits events [event C]. *)
Definition M (St C A : Type) : Type := St -> list (event C) * St * outcome A.

Section Monad.
Context {St C : Type}.

Definition ret {A} (a : A) : M St C A := fun s => ([], s, Returns a).

Definition bind {A B} (m : M St C A) (k : A -> M St C B) : M St C B :=
  fun s =>
    match m s with
    | (t, s', Returns a) =>
        match k a s' with
        | (t', s'', o) => ((t ++ t')%list, s'', o)
        end
    | (t, s', Raises e) => (t, s', Raises e)
    end.

Definition emit (e : event C) : M St C unit := fun s => ([e], s, Returns tt).
Definition print (line : string) : M St C unit := emit (Print line).
Definition call (c : C) : M St C unit := emit (Call c).
Definition get : M St C St := fun s => ([], s, Returns s).
Definition put (s : St) : M St C unit := fun _ => ([], s, Returns tt).
Definition raise {A} (e : exn) : M St C A := fun s => ([], s, Raises e).

(** [try: m  except <classes>: h] where [catches] decides the except
    clause; an exception the clause does not name keeps propagating. *)
Definition try_except {A} (m : M St C A) (catches : exn -> bool)
    (h : exn -> M St C A) : M St C A :=
  fun s =>
    match m s with
    | (t, s', Raises e) =>
        if catches e then
          match h e s' with
          | (t', s'', o) => ((t ++ t')%list, s'', o)
          end
        else (t, s', Raises e)
    | r => r
    end.

(** [for x in xs: acc = body(x, acc)] *)
Fixpoint for_each {A B} (xs : list A) (body : A -> B -> M St C B) (acc : B)
    : M St C B :=
  match xs with
  | [] => ret acc
  | x :: xs' => bind (body x acc) (for_each xs' body)
  end.

Definition trace_of {A} (r : list (event C) * St * outcome A) : list (event C) :=
  fst (fst r).
Definition state_of {A} (r : list (event C) * St * outcome A) : St :=
  snd (fst r).
Definition outcome_of {A} (r : list (event C) * St * outcome A) : outcome A :=
  snd r.

(** [m], run from [s], returns [a], leaves the state as it was, and emits
    only events that satisfy [P]. *)
Definition reads_only {A} (P : event C -> Prop) (m : M St C A) (s : St) (a : A)
    : Prop :=
  exists t, m s = (t, s, Returns a) /\ Forall P t.

(** The lines a run printed, in order. *)
Definition printed (t : list (event C)) : list string :=
  flat_map (fun e => match e with Print l => [l] | Call _ => [] end) t.

(** The library calls a run issued, in order. *)
Definition calls (t : list (event C)) : list C :=
  flat_map (fun e => match e with Print _ => [] | Call c => [c] end) t.

(** [m], run from [s], ends with outcome [o] and the state as it was, emits
    only events that satisfy [P], and issues exactly the library calls [cs],
    in that order. *)
Definition ends {A} (P : event C -> Prop) (m : M St C A) (s : St) (o : outcome A)
    (cs : list C) : Prop :=
  exists t, m s = (t, s, o) /\ Forall P t /\ calls t = cs.

(** [m], run from [s], returns [a], leaves the state as it was, and issues
    exactly the library calls [cs], in that order. *)
Definition issues {A} (m : M St C A) (s : St) (a : A) (cs : list C) : Prop :=
  exists t, m s = (t, s, Returns a) /\ calls t = cs.
End Monad.

(** Exit status of the interpreter once the main program stopped: 0 when
    it ran to its end, the argument of [sys.exit], and 1 after a traceback. *)
Definition exit_status {A} (o : outcome A) : Z :=
  match o with
  | Returns _ => 0
  | Raises (SystemExit code) => code
  | Raises _ => 1
  end.

Definition sys_exit {St C A} (code : Z) : M St C A := raise (SystemExit code).

(** ** Strings

    A Python [str] is embedded as the [string] of its UTF-8 bytes. *)

(** The double-quote character. *)
Definition dq : string := String (ascii_of_nat 34) EmptyString.

(** [s * n] *)
Fixpoint str_repeat (s : string) (n : nat) : string :=
  match n with
  | O => EmptyString
  | S n' => s ++ str_repeat s n'
  end.

(** [str(n)] for an [int]. *)
Definition str_int (z : Z) : string := NilZero.string_of_int (Z.to_int z).

(** [bool(s)] for a [str]. *)
Definition nonempty (s : string) : bool :=
  match s with
  | EmptyString => false
  | String _ _ => true
  end.

(** [bool(x)] for a value that is [None] or a [str]. *)
Definition truthy (x : option string) : bool :=
  match x with
  | None => false
  | Some s => nonempty s
  end.

(** UTF-8 continuation bytes are [10xxxxxx]. *)
Definition is_continuation (c : ascii) : bool :=
  match c with
  | Ascii _ _ _ _ _ _ b6 b7 => b7 && negb b6
  end.

Fixpoint take_continuation (s : string) : string :=
  match s with
  | String c s' => if is_continuation c then String c (take_continuation s') else EmptyString
  | EmptyString => EmptyString
  end.

Fixpoint drop_continuation (s : string) : string :=
  match s with
  | String c s' => if is_continuation c then drop_continuation s' else s
  | EmptyString => EmptyString
  end.

(** [s[:n]]: the first [n] code points of [s]. *)
Fixpoint slice_to (n : nat) (s : string) : string :=
  match n, s with
  | S n', String c s' =>
      String c (take_continuation s' ++ slice_to n' (drop_continuation s'))
  | _, _ => EmptyString
  end.

(** [f"{s:<n}"]: pad with spaces on the right up to width [n]. *)
Definition ljust (n : nat) (s : string) : string :=
  s ++ str_repeat " " (n - String.length s).

(** [sep.join(xs)] *)
Fixpoint str_join (sep : string) (xs : list string) : string :=
  match xs with
  | [] => EmptyString
  | [x] => x
  | x :: xs' => x ++ sep ++ str_join sep xs'
  end.

(** A line feed, for the f-strings that start with one. *)
Definition nl : string := String (ascii_of_nat 10) EmptyString.

(** [needle in haystack] for two [str]. *)
Fixpoint str_contains (needle haystack : string) : bool :=
  if String.prefix needle haystack then true
  else
    match haystack with
    | EmptyString => false
    | String _ h' => str_contains needle h'
    end.

End Py.

Notation "'do' x <- m ; k" := (Py.bind m (fun x => k))
  (at level 10, x name, m at level 100, k at level 200).
Notation "m ;; k" := (Py.bind m (fun _ => k))
  (at level 100, k at level 200, right associativity).

(* ================================================================== *)
(** * A regular-expression engine for the auditor's patterns *)
(* ================================================================== *)

(** The auditor calls [re.search(pattern, content, re.IGNORECASE | re.DOTALL)].
    Its patterns only use literal characters, backslash-escaped punctuation,
    [\s], [.] and the postfix [*]; [AsciiRe.search] implements [re.search]
    for that syntax on ASCII text, with both flags on.  Patterns outside the
    fragment are rejected by [parse]. *)
Module AsciiRe.

Inductive atom : Type :=
| Lit (c : ascii)     (* a literal character *)
| AnyChar             (* [.] under DOTALL: any character, newline included *)
| Space.              (* [\s] *)

Inductive token : Type :=
| TAtom (a : atom)
| TStar.

Inductive item : Type :=
| One (a : atom)
| Many (a : atom).    (* [a*] *)

Definition is_alnum (c : ascii) : bool :=
  let n := nat_of_ascii c in
  ((48 <=? n) && (n <=? 57) || (65 <=? n) && (n <=? 90) || (97 <=? n) && (n <=? 122))%nat.

(** Characters with a meaning of their own in a pattern. *)
Definition is_special (c : ascii) : bool :=
  existsb (Ascii.eqb c)
    ["["; "]"; "("; ")"; "{"; "}"; "+"; "?"; "|"; "^"; "$"]%char.

Fixpoint tokens (p : string) : option (list token) :=
  match p with
  | EmptyString => Some []
  | String c rest =>
      if Ascii.eqb c "\"%char then
        match rest with
        | EmptyString => None
        | String e rest' =>
            if Ascii.eqb e "s"%char then cons (TAtom Space) <$> tokens rest'
            else if is_alnum e then None
            else cons (TAtom (Lit e)) <$> tokens rest'
        end
      else if Ascii.eqb c "."%char then cons (TAtom AnyChar) <$> tokens rest
      else if Ascii.eqb c "*"%char then cons TStar <$> tokens rest
      else if is_special c then None
      else cons (TAtom (Lit c)) <$> tokens rest
  end.

Fixpoint items (ts : list token) : option (list item) :=
  match ts with
  | [] => Some []
  | TAtom a :: TStar :: ts' => cons (Many a) <$> items ts'
  | TAtom a :: ts' => cons (One a) <$> items ts'
  | TStar :: _ => None
  end.

Definition parse (p : string) : option (list item) :=
  tokens p ≫= items.

(** IGNORECASE on ASCII letters. *)
Definition lower (c : ascii) : ascii :=
  let n := nat_of_ascii c in
  if ((65 <=? n) && (n <=? 90))%nat then ascii_of_nat (n + 32) else c.

Definition is_space (c : ascii) : bool :=
  let n := nat_of_ascii c in
  ((9 <=? n) && (n <=? 13) || (28 <=? n) && (n <=? 32))%nat.

Definition accepts (a : atom) (c : ascii) : bool :=
  match a with
  | Lit l => Ascii.eqb (lower l) (lower c)
  | AnyChar => true
  | Space => is_space c
  end.

(** Does [p] match a prefix of the text? *)
Fixpoint match_here (p : list item) : string -> bool :=
  match p with
  | [] => fun _ => true
  | One a :: p' => fun s =>
      match s with
      | String c s' => if accepts a c then match_here p' s' else false
      | EmptyString => false
      end
  | Many a :: p' =>
      fix many (s : string) : bool :=
        if match_here p' s then true
        else
          match s with
          | String c s' => if accepts a c then many s' else false
          | EmptyString => false
          end
  end.

(** Does [p] match somewhere in the text? *)
Fixpoint search_items (p : list item) (s : string) : bool :=
  if match_here p s then true
  else
    match s with
    | String _ s' => search_items p s'
    | EmptyString => false
    end.

(** [re.search(pattern, content, re.IGNORECASE | re.DOTALL) is not None] *)
Definition search (pattern content : string) : bool :=
  match parse pattern with
  | Some p => search_items p content
  | None => false
  end.

End AsciiRe.

(* ================================================================== *)
(** * validate-image-e2e-test.py: the static pattern auditor *)
(* ================================================================== *)

Module Auditor.
Import Py.

(** ** The file system the auditor looks at *)

(** What [open(path, 'r', encoding='utf-8').read()] does on a path that
    exists. *)
Inductive contents : Type :=
| Text (s : string)             (* the decoded text *)
| Undecodable (msg : string)    (* UnicodeDecodeError, a ValueError *)
| Unreadable (msg : string).    (* a directory, no permission: OSError *)

Record file : Type := File {
  getsize : Z;                  (* [os.path.getsize] *)
  read : contents
}.

Abbreviation filesystem := (gmap string file).

(** The library calls kept in the trace. *)
Inductive libcall : Type :=
| Open (path : string)
| ReSearch (pattern content : string).

Abbreviation M := (Py.M filesystem libcall).

Definition os_path_exists (path : string) : M bool :=
  do fs <- get; ret (bool_decide (is_Some (fs !! path))).

Definition os_path_getsize (path : string) : M Z :=
  do fs <- get;
  match fs !! path with
  | Some f => ret (getsize f)
  | None => raise (OSError ("[Errno 2] No such file or directory: '" ++ path ++ "'"))
  end.

(** [with open(filepath, 'r', encoding='utf-8') as f: return f.read()] *)
Definition open_and_read (filepath : string) : M (option string) :=
  call (Open filepath);;
  do fs <- get;
  match fs !! filepath with
  | Some f =>
      match read f with
      | Text s => ret (Some s)
      | Undecodable msg => raise (ValueError msg)
      | Unreadable msg => raise (OSError msg)
      end
  | None => raise (OSError ("[Errno 2] No such file or directory: '" ++ filepath ++ "'"))
  end.

Definition read_file (filepath : string) : M (option string) :=
  try_except (open_and_read filepath) is_Exception
    (fun e => print ("❌ Error reading " ++ filepath ++ ": " ++ str_exn e);;
              ret None).

(** ** Hard-coded paths *)

Definition tests_dir : string :=
  "/home/jsbattig/Dev/claude-server/claude-batch-server/tests/ClaudeBatchServer.IntegrationTests".
Definition test_file : string := tests_dir ++ "/ImageAnalysisE2ETests.cs".
Definition working_test : string := tests_dir ++ "/ComplexE2ETests.cs".
Definition image_path : string := tests_dir ++ "/test-image.png".
Definition csproj_path : string := tests_dir ++ "/ClaudeBatchServer.IntegrationTests.csproj".
Definition env_path : string := "/home/jsbattig/Dev/claude-server/claude-batch-server/.env".

(** ** Pattern tables *)

Definition patterns_to_check : list (string * string) :=
  [ ("WebApplicationFactory<Program>", "WebApplicationFactory usage");
    ("IClassFixture<WebApplicationFactory<Program>>", "IClassFixture implementation");
    ("\.env", "Environment file loading");
    ("TEST_USERNAME.*TEST_PASSWORD", "Test credentials pattern");
    ("LoginRequest", "Authentication request");
    ("PostAsJsonAsync.*auth/login", "Login endpoint usage");
    ("CreateAuthenticatedClient", "Authenticated client creation");
    ("Authorization.*Bearer", "Bearer token authentication");
    ("MultipartFormDataContent", "Image upload pattern");
    ("MediaTypeHeaderValue.*image/png", "Image content type");
    ("PostAsync.*images", "Image upload endpoint");
    ("JobStatusResponse", "Job status checking");
    ("\.Should\(\)", "FluentAssertions usage") ].

Definition image_patterns : list (string * string) :=
  [ ("test-image\.png", "Test image file reference");
    ("File\.ReadAllBytesAsync", "Image file reading");
    ("ByteArrayContent.*imageBytes", "Image byte array handling");
    ("image.*analysis.*prompt", "Image analysis prompt");
    ("shapes.*colors.*text", "Expected analysis elements");
    ("rectangle.*circle.*triangle", "Specific shape detection");
    ("blue.*red.*green", "Color detection");
    ("Output.*Should.*Contain", "Output validation assertions");
    ("Length.*Should.*BeGreaterThan", "Response length validation") ].

Definition auth_patterns : list string :=
  [ "var username = Environment\.GetEnvironmentVariable\(" ++ dq ++ "TEST_USERNAME" ++ dq ++ "\);";
    "var password = Environment\.GetEnvironmentVariable\(" ++ dq ++ "TEST_PASSWORD" ++ dq ++ "\);";
    "var loginRequest = new LoginRequest";
    "Username = username,\s*Password = password";
    "await _client\.PostAsJsonAsync\(" ++ dq ++ "/auth/login" ++ dq;
    "CreateAuthenticatedClient\(loginResult\.Token\)" ].

Definition required_packages : list string :=
  [ "Microsoft.AspNetCore.Mvc.Testing"; "FluentAssertions"; "xunit"; "DotNetEnv" ].

Definition required_vars : list string := [ "TEST_USERNAME"; "TEST_PASSWORD" ].

Section WithRegexEngine.

(** [re_search pattern content] stands for
    [re.search(pattern, content, re.IGNORECASE | re.DOTALL) is not None]. *)
Variable re_search : string -> string -> bool.

Definition re_search_call (pattern content : string) : M bool :=
  call (ReSearch pattern content);; ret (re_search pattern content).

Definition validate_test_structure : M bool :=
  print "🔍 Validating ImageAnalysisE2ETests.cs structure...";;
  do test_exists <- os_path_exists test_file;
  if negb test_exists then
    print ("❌ Test file does not exist: " ++ test_file);;
    ret false
  else
  do working_exists <- os_path_exists working_test;
  if negb working_exists then
    print ("❌ Reference test file does not exist: " ++ working_test);;
    ret false
  else
  do test_content <- read_file test_file;
  do working_content <- read_file working_test;
  if negb (truthy test_content) || negb (truthy working_content) then
    ret false
  else
  print (nl ++ "📋 Pattern Validation:");;
  do all_patterns_found <-
    for_each patterns_to_check
      (fun '(pattern, description) all_patterns_found =>
         do found <- re_search_call pattern (default EmptyString test_content);
         if found then
           print ("   ✅ " ++ description);; ret all_patterns_found
         else
           print ("   ❌ " ++ description);; ret false)
      true;
  ret all_patterns_found.

Definition validate_image_specific_logic : M bool :=
  print (nl ++ "🖼️ Validating image-specific test logic...");;
  do test_content <- read_file test_file;
  if negb (truthy test_content) then
    ret false
  else
  print "📝 Image Analysis Patterns:";;
  do all_patterns_found <-
    for_each image_patterns
      (fun '(pattern, description) all_patterns_found =>
         do found <- re_search_call pattern (default EmptyString test_content);
         if found then
           print ("   ✅ " ++ description);; ret all_patterns_found
         else
           print ("   ❌ " ++ description);; ret false)
      true;
  ret all_patterns_found.

Definition validate_test_image_exists : M bool :=
  print (nl ++ "📁 Validating test image file...");;
  do image_exists <- os_path_exists image_path;
  if negb image_exists then
    print ("❌ Test image does not exist: " ++ image_path);;
    ret false
  else
  do file_size <- os_path_getsize image_path;
  print ("   ✅ Test image exists: " ++ image_path);;
  print ("   ✅ File size: " ++ str_int file_size ++ " bytes");;
  (if file_size <? 1000 then
     print ("   ⚠️ Warning: Image file seems small (" ++ str_int file_size ++ " bytes)")
   else ret tt);;
  (if file_size >? 50000 then
     print ("   ⚠️ Warning: Image file seems large (" ++ str_int file_size ++ " bytes)")
   else ret tt);;
  ret true.

Definition validate_authentication_pattern : M bool :=
  print (nl ++ "🔐 Validating authentication pattern...");;
  do test_content <- read_file test_file;
  do working_content <- read_file working_test;
  if negb (truthy test_content) || negb (truthy working_content) then
    ret false
  else
  print "🔑 Authentication Pattern Check:";;
  do all_auth_patterns <-
    for_each auth_patterns
      (fun pattern all_auth_patterns =>
         do found <- re_search_call pattern (default EmptyString test_content);
         if found then
           print "   ✅ Auth pattern found";; ret all_auth_patterns
         else
           print ("   ❌ Auth pattern missing: " ++ slice_to 50 pattern ++ "...");;
           ret false)
      true;
  ret all_auth_patterns.

Definition validate_project_dependencies : M bool :=
  print (nl ++ "📦 Validating project dependencies...");;
  do csproj_exists <- os_path_exists csproj_path;
  if negb csproj_exists then
    print ("❌ Project file does not exist: " ++ csproj_path);;
    ret false
  else
  do csproj_content <- read_file csproj_path;
  if negb (truthy csproj_content) then
    ret false
  else
  print "📚 Required Dependencies:";;
  do all_deps_found <-
    for_each required_packages
      (fun package all_deps_found =>
         if str_contains package (default EmptyString csproj_content) then
           print ("   ✅ " ++ package);; ret all_deps_found
         else
           print ("   ❌ " ++ package);; ret false)
      true;
  ret all_deps_found.

Definition generate_test_summary : M unit :=
  print (nl ++ "📋 Test Execution Summary:");;
  print "   When this test runs, it should:";;
  print "   1. ✅ Load test credentials from .env file";;
  print "   2. ✅ Create in-memory test server using WebApplicationFactory";;
  print "   3. ✅ Authenticate using TEST_USERNAME/TEST_PASSWORD";;
  print "   4. ✅ Create job with image analysis prompt";;
  print "   5. ✅ Upload test-image.png via multipart form data";;
  print "   6. ✅ Start job execution";;
  print "   7. ✅ Poll job status until completion";;
  print "   8. ✅ Verify Claude identified shapes (rectangle, circle, triangle)";;
  print "   9. ✅ Verify Claude identified colors (blue, red, green)";;
  print "   10. ✅ Verify Claude identified text content";;
  print "   11. ✅ Verify response length indicates detailed analysis";;
  print "   12. ✅ Verify image file stored in job workspace";;
  print "   13. ✅ Clean up test repositories and jobs".

Definition validate_env_file : M bool :=
  print (nl ++ "🔧 Validating environment configuration...");;
  do env_exists <- os_path_exists env_path;
  if negb env_exists then
    print ("❌ .env file does not exist: " ++ env_path);;
    ret false
  else
  do env_content <- read_file env_path;
  if negb (truthy env_content) then
    ret false
  else
  print "🌍 Environment Variables:";;
  do all_vars_found <-
    for_each required_vars
      (fun var all_vars_found =>
         if str_contains var (default EmptyString env_content) then
           print ("   ✅ " ++ var ++ " is configured");; ret all_vars_found
         else
           print ("   ❌ " ++ var ++ " is missing");; ret false)
      true;
  ret all_vars_found.

Definition all_passed_banner : string := "🎉 All validations passed!".
Definition some_failed_banner : string := "❌ Some validations failed".

Definition main : M unit :=
  print "🧪 ImageAnalysisE2ETests.cs - Validation Report";;
  print (str_repeat "=" 60);;
  do r1 <- validate_test_structure;
  do r2 <- validate_image_specific_logic;
  do r3 <- validate_test_image_exists;
  do r4 <- validate_authentication_pattern;
  do r5 <- validate_project_dependencies;
  do r6 <- validate_env_file;
  let validation_results :=
    [ ("Test Structure", r1); ("Image Logic", r2); ("Test Image File", r3);
      ("Authentication", r4); ("Dependencies", r5); ("Environment", r6) ] in
  generate_test_summary;;
  print (nl ++ "📊 Validation Results:");;
  print (str_repeat "-" 40);;
  do all_passed <-
    for_each validation_results
      (fun '(name, result) all_passed =>
         let status := if result : bool then "✅ PASS" else "❌ FAIL" in
         print ("   " ++ ljust 20 name ++ " " ++ status);;
         if negb result then ret false else ret all_passed)
      true;
  print (str_repeat "-" 40);;
  do exit_code <-
    (if all_passed : bool then
       print all_passed_banner;;
       print "✅ ImageAnalysisE2ETests.cs is ready for execution";;
       print "✅ Test follows the same patterns as working E2E tests";;
       print "✅ Test should work when run with: dotnet test";;
       ret 0
     else
       print some_failed_banner;;
       print "⚠️ Fix the issues above before running the test";;
       ret 1);
  print (nl ++ "🚀 To run the test: dotnet test --filter ImageAnalysisE2ETests");;
  sys_exit exit_code.

End WithRegexEngine.

(** The script's exit code when run against [fs]. *)
Definition exit_code (re_search : string -> string -> bool) (fs : filesystem) : Z :=
  exit_status (outcome_of (main re_search fs)).

(** Does the run print the "all passed" banner? *)
Definition reports_all_passed (re_search : string -> string -> bool)
    (fs : filesystem) : bool :=
  bool_decide (all_passed_banner ∈ printed (trace_of (main re_search fs))).

End Auditor.

(* ================================================================== *)
(** * test-image-analysis.py: the synthetic image generator/validator *)
(* ================================================================== *)

Module ImageScript.
Import Py.

(** ** Pillow values *)

(** The only font the script ever asks for. *)
Inductive font : Type := DefaultFont.

(** What [ImageDraw] was asked to draw, with the arguments as passed. *)
Inductive draw_op : Type :=
| Rectangle (xy : list Z) (fill outline : string) (width : Z)
| Ellipse (xy : list Z) (fill outline : string) (width : Z)
| Polygon (xy : list (Z * Z)) (fill outline : string) (width : Z)
| DrawText (xy : Z * Z) (text : string) (fill : string) (fnt : option font).

(** An in-memory image: how it was created and what was drawn on it, in
    drawing order. *)
Record image : Type := Image {
  mode : string;
  size : Z * Z;
  background : string;
  drawn : list draw_op
}.

(** [Image.new(mode, size, color=color)] *)
Definition Image_new (mode : string) (size : Z * Z) (color : string) : image :=
  {| mode := mode; size := size; background := color; drawn := [] |}.

Definition draw (op : draw_op) (img : image) : image :=
  {| mode := mode img; size := size img; background := background img;
     drawn := (drawn img ++ [op])%list |}.

(** ** Files as Pillow and the OS see them *)

(** [img.getcolors(maxcolors=256)] forces the pixel data to be decoded. *)
Inductive getcolors_result : Type :=
| DecodeFails (msg : string)                    (* truncated or corrupt data: OSError *)
| Colors (cs : option (list (Z * list Z))).     (* [None] above 256 colours *)

(** What [Image.open] reads from the header. *)
Record opened : Type := Opened {
  o_size : Z * Z;
  o_mode : string;
  o_format : option string;
  o_getcolors : getcolors_result
}.

Inductive pil_view : Type :=
| CannotOpen (msg : string)     (* not an image, a directory, ...: OSError *)
| Opens (o : opened).

Record file : Type := File {
  getsize : Z;                  (* [os.path.getsize] *)
  pil : pil_view
}.

Abbreviation filesystem := (gmap string file).

(** What [img.save(path)] does: it writes a file, or raises before writing
    (missing directory or no permission: OSError; no known extension:
    ValueError). *)
Inductive save_result : Type :=
| Saved (f : file)
| SaveOSError (msg : string)
| SaveValueError (msg : string).

(** What [ImageFont.load_default()] does: it returns the built-in font, or
    raises because the font cannot be read (OSError). *)
Inductive font_result : Type :=
| FontLoaded (f : font)
| FontFails (msg : string).

(** The Pillow installation and the encoders the script runs with. *)
Record pillow : Type := Pillow {
  save_as : string -> image -> save_result;
  load_default : font_result
}.

Inductive libcall : Type :=
| ImageOpen (path : string)
| ImageSave (path : string) (img : image).

Abbreviation M := (Py.M filesystem libcall).

Definition os_path_exists (path : string) : M bool :=
  do fs <- get; ret (bool_decide (is_Some (fs !! path))).

Definition os_path_getsize (path : string) : M Z :=
  do fs <- get;
  match fs !! path with
  | Some f => ret (getsize f)
  | None => raise (OSError ("[Errno 2] No such file or directory: '" ++ path ++ "'"))
  end.

Definition Image_open (path : string) : M opened :=
  call (ImageOpen path);;
  do fs <- get;
  match fs !! path with
  | Some f =>
      match pil f with
      | Opens o => ret o
      | CannotOpen msg => raise (OSError msg)
      end
  | None => raise (OSError ("[Errno 2] No such file or directory: '" ++ path ++ "'"))
  end.

Definition getcolors (img : opened) : M (option (list (Z * list Z))) :=
  match o_getcolors img with
  | Colors cs => ret cs
  | DecodeFails msg => raise (OSError msg)
  end.

(** [str(t)] for a pair of [int]. *)
Definition str_pair (t : Z * Z) : string :=
  "(" ++ str_int (fst t) ++ ", " ++ str_int (snd t) ++ ")".

Definition str_option (x : option string) : string :=
  match x with
  | Some s => s
  | None => "None"
  end.

Definition pair_eqb (a b : Z * Z) : bool :=
  (fst a =? fst b) && (snd a =? snd b).

Definition tests_dir : string :=
  "/home/jsbattig/Dev/claude-server/claude-batch-server/tests/ClaudeBatchServer.IntegrationTests".
Definition test_image_path : string := tests_dir ++ "/test-image.png".

Section WithPillow.
Variable pillow_env : pillow.

Definition ImageFont_load_default : M font :=
  match load_default pillow_env with
  | FontLoaded f => ret f
  | FontFails msg => raise (OSError msg)
  end.

(** [draw.text(xy, text, fill=fill, font=font)] on the image being drawn.
    With [font=None] Pillow loads the default font itself before it draws,
    so the call raises what [ImageFont.load_default()] raises. *)
Definition ImageDraw_text (xy : Z * Z) (text fill : string) (fnt : option font)
    (img : image) : M image :=
  (match fnt with
   | Some _ => ret tt
   | None => ImageFont_load_default;; ret tt
   end);;
  ret (draw (DrawText xy text fill fnt) img).

Definition Image_save (img : image) (path : string) : M unit :=
  call (ImageSave path img);;
  match save_as pillow_env path img with
  | Saved f => do fs <- get; put (<[path := f]> fs)
  | SaveOSError msg => raise (OSError msg)
  | SaveValueError msg => raise (ValueError msg)
  end.

Definition create_test_image (output_path : string) : M image :=
  print ("Creating test image at: " ++ output_path);;
  let img := Image_new "RGB" (400, 300) "white" in
  let img := draw (Rectangle [50; 50; 150; 100] "blue" "black" 2) img in
  print "✅ Added blue rectangle";;
  let img := draw (Ellipse [200; 50; 300; 150] "red" "black" 2) img in
  print "✅ Added red circle";;
  let img := draw (Polygon [(100, 200); (150, 250); (50, 250)] "green" "black" 2) img in
  print "✅ Added green triangle";;
  do fnt <- try_except (do f <- ImageFont_load_default; ret (Some f))
              (fun _ => true) (fun _ => ret None);
  do img <- ImageDraw_text (50, 10) "Test Image" "black" fnt img;
  do img <- ImageDraw_text (50, 270) "Shapes: Rectangle, Circle, Triangle" "black" fnt img;
  print "✅ Added text labels";;
  Image_save img output_path;;
  ret img.

Definition analyze_test_image (image_path : string) : M bool :=
  print (nl ++ "🔍 Analyzing test image: " ++ image_path);;
  do image_exists <- os_path_exists image_path;
  if negb image_exists then
    print ("❌ Image file does not exist: " ++ image_path);;
    ret false
  else
  try_except
    (do img <- Image_open image_path;
     print "✅ Image loaded successfully";;
     print ("   Size: " ++ str_pair (o_size img));;
     print ("   Mode: " ++ o_mode img);;
     print ("   Format: " ++ str_option (o_format img));;
     do colors <- getcolors img;
     let num_colors :=
       match colors with
       | Some (c :: cs) => str_int (Z.of_nat (length (c :: cs)))
       | _ => "many"
       end in
     print ("   Unique colors: " ++ num_colors);;
     do file_size <- os_path_getsize image_path;
     print ("   File size: " ++ str_int file_size ++ " bytes");;
     if file_size <? 100 then
       print "❌ Image file is too small";;
       ret false
     else
     if negb (pair_eqb (o_size img) (400, 300)) then
       print "❌ Image has unexpected dimensions";;
       ret false
     else
     print "✅ Image analysis passed - ready for Claude Code testing";;
     ret true)
    is_Exception
    (fun e => print ("❌ Error analyzing image: " ++ str_exn e);;
              ret false).

Definition simulate_claude_analysis : M (list string) :=
  print (nl ++ "🤖 Expected Claude Analysis:");;
  print "   Shapes: Should detect rectangle, circle, triangle";;
  print "   Colors: Should detect blue, red, green, white, black";;
  print "   Text: Should detect 'Test Image' and 'Shapes: Rectangle, Circle, Triangle'";;
  print "   Layout: Should describe spatial arrangement of elements";;
  let expected_keywords :=
    [ "rectangle"; "blue"; "red"; "green"; "circle"; "triangle";
      "test"; "image"; "shapes"; "text" ] in
  print ("   Expected keywords: " ++ str_join ", " expected_keywords);;
  ret expected_keywords.

(** [import PIL] cannot fail here: the module's own top-level
    [from PIL import ...] has already succeeded when [main] runs. *)
Definition validate_test_setup : M bool :=
  print "🔧 Validating test environment...";;
  print "✅ PIL (Pillow) is available";;
  do dir_exists <- os_path_exists tests_dir;
  if dir_exists then
    print ("✅ Test directory exists: " ++ tests_dir);;
    ret true
  else
    print ("❌ Test directory does not exist: " ++ tests_dir);;
    ret false.

Definition create_test_summary : M unit :=
  print (nl ++ "📋 E2E Test Validation Checklist:");;
  print "   1. ✅ Image upload via multipart form data";;
  print "   2. ✅ Image storage in job workspace (/workspace/jobs/{jobId}/images/)";;
  print "   3. ✅ Claude Code execution with image analysis";;
  print "   4. ✅ Claude response contains shape identification";;
  print "   5. ✅ Claude response contains color identification";;
  print "   6. ✅ Claude response contains text recognition";;
  print "   7. ✅ Claude response demonstrates understanding of spatial layout";;
  print "   8. ✅ Response length indicates detailed analysis (>100 chars)";;
  print "   9. ✅ Job status transitions: created → running → completed";;
  print "   10. ✅ No errors in job execution".

Definition main : M unit :=
  print "🧪 Image Analysis E2E Test - Manual Validation";;
  print (str_repeat "=" 60);;
  do setup_ok <- validate_test_setup;
  (if negb setup_ok then
     print "❌ Test environment validation failed";;
     sys_exit 1
   else ret tt);;
  let image_path := test_image_path in
  do image_exists <- os_path_exists image_path;
  (if image_exists then
     print ("📁 Test image already exists: " ++ image_path)
   else
     create_test_image image_path;; ret tt);;
  do analysis_ok <- analyze_test_image image_path;
  (if negb analysis_ok then
     print "❌ Image analysis failed";;
     sys_exit 1
   else ret tt);;
  do expected_keywords <- simulate_claude_analysis;
  create_test_summary;;
  print (nl ++ "🎯 Test Image Ready!");;
  print ("   Path: " ++ image_path);;
  print "   The E2E test should upload this image to Claude Batch Server";;
  print "   and verify Claude Code correctly identifies the visual elements.";;
  print (nl ++ "✅ Manual validation complete - ready for E2E test execution!").

End WithPillow.

End ImageScript.

(* ================================================================== *)
(** * debug-auth-test.py: the authentication probe *)
(* ================================================================== *)

Module AuthProbe.
Import Py.

(** ** JSON values as [response.json()] returns them *)

Inductive pyval : Type :=
| PNone
| PBool (b : bool)
| PInt (z : Z)
| PFloat (f : spec_float)
| PStr (s : string)
| PList (xs : list pyval)
| PDict (items : list (string * pyval)).   (* the items, keys distinct *)

(** [bool(v)] *)
Definition truthy (v : pyval) : bool :=
  match v with
  | PNone => false
  | PBool b => b
  | PInt z => negb (z =? 0)
  | PFloat (S754_zero _) => false
  | PFloat _ => true
  | PStr s => nonempty s
  | PList xs => match xs with [] => false | _ => true end
  | PDict items => match items with [] => false | _ => true end
  end.

Fixpoint assoc (key : string) (items : list (string * pyval)) : option pyval :=
  match items with
  | [] => None
  | (k, v) :: items' => if String.eqb k key then Some v else assoc key items'
  end.

(** [type(v).__name__] *)
Definition type_name (v : pyval) : string :=
  match v with
  | PNone => "NoneType"
  | PBool _ => "bool"
  | PInt _ => "int"
  | PFloat _ => "float"
  | PStr _ => "str"
  | PList _ => "list"
  | PDict _ => "dict"
  end.

(** ** Header values on their way to the wire *)

Definition byte_of (c : ascii) : Z := Z.of_N (N_of_ascii c).

(** The payload bits of the byte that starts a code point. *)
Definition lead_bits (b : Z) : Z :=
  if b <? 128 then b
  else if b <? 224 then b - 192
  else if b <? 240 then b - 224
  else b - 240.

Definition flush (cur : option Z) : list Z :=
  match cur with
  | Some cp => [cp]
  | None => []
  end.

(** The code points of a [str], read from its UTF-8 bytes; [cur] is the
    code point under construction. *)
Fixpoint decode_utf8 (cur : option Z) (s : string) : list Z :=
  match s with
  | EmptyString => flush cur
  | String c s' =>
      if is_continuation c then
        decode_utf8 (Some (default 0 cur * 64 + (byte_of c - 128))) s'
      else
        (flush cur ++ decode_utf8 (Some (lead_bits (byte_of c))) s')%list
  end.

Definition code_points_of (s : string) : list Z := decode_utf8 None s.

Definition backslash : string := String (ascii_of_nat 92) EmptyString.

Definition hex_digit (d : Z) : string :=
  String (ascii_of_N (Z.to_N (if d <? 10 then 48 + d else 87 + d))) EmptyString.

(** [z] in lower-case hexadecimal, on [digits] digits. *)
Fixpoint hex (digits : nat) (z : Z) : string :=
  match digits with
  | O => EmptyString
  | S n => hex n (z / 16) ++ hex_digit (z mod 16)
  end.

(** How many code points from the head of [cps] are outside latin-1. *)
Fixpoint run_outside_latin1 (cps : list Z) : Z :=
  match cps with
  | cp :: rest => if cp <? 256 then 0 else 1 + run_outside_latin1 rest
  | [] => 0
  end.

(** [str(e)] for the UnicodeEncodeError that [value.encode('latin-1')]
    raises: it names the first run of code points above U+00FF. *)
Fixpoint latin1_error_from (pos : Z) (cps : list Z) : option string :=
  match cps with
  | [] => None
  | cp :: rest =>
      if cp <? 256 then latin1_error_from (pos + 1) rest
      else
        let run := run_outside_latin1 rest in
        Some (if run =? 0 then
                "'latin-1' codec can't encode character '" ++ backslash ++
                (if cp <? 65536 then "u" ++ hex 4 cp else "U" ++ hex 8 cp) ++
                "' in position " ++ str_int pos ++ ": ordinal not in range(256)"
              else
                "'latin-1' codec can't encode characters in position " ++
                str_int pos ++ "-" ++ str_int (pos + run) ++
                ": ordinal not in range(256)")
  end.

(** [None] when every character of [value] is in latin-1. *)
Definition latin1_error (value : string) : option string :=
  latin1_error_from 0 (code_points_of value).

(** A carriage return or a line feed occurs in [value]. *)
Fixpoint has_line_break (value : string) : bool :=
  match value with
  | EmptyString => false
  | String c rest =>
      if (byte_of c =? 10) || (byte_of c =? 13) then true else has_line_break rest
  end.

(** The first value among [headers] with a line break, and the first
    complaint of the latin-1 encoder about a value. *)
Fixpoint first_line_break (headers : list (string * string)) : option string :=
  match headers with
  | [] => None
  | (_, value) :: rest =>
      if has_line_break value then Some value else first_line_break rest
  end.

Fixpoint first_latin1_error (headers : list (string * string)) : option string :=
  match headers with
  | [] => None
  | (_, value) :: rest =>
      match latin1_error value with
      | Some msg => Some msg
      | None => first_latin1_error rest
      end
  end.


(** ** The HTTP server on the other side *)

Record response : Type := Response {
  status_code : Z;
  text : string;
  json : option pyval           (* [None]: the body is not JSON, [.json()] raises *)
}.

Inductive request : Type :=
| POST (url : string) (json_body : list (string * string))
| GET (url : string) (headers : list (string * string)).

Inductive reply : Type :=
| Responds (r : response)
| NoResponse (msg : string).    (* connection refused, ...: a RequestException *)


Inductive libcall : Type :=
| Http (r : request)
| SetEnv (name value : string).

Definition api_base : string := "http://localhost:5000".

Section WithServer.

(** The server is a state machine the probe drives through [handle]; every
    request that reaches it comes back, with a response or with an exception
    of requests. *)
Variable server : Type.
Variable handle : server -> request -> server * reply.

(** [repr] of a JSON value, for the f-strings that interpolate one. *)
Variable repr : pyval -> string.

Local Abbreviation M := (Py.M server libcall).

(** The request goes to the server and its reply comes back. *)
Definition exchange (r : request) : M response :=
  do srv <- get;
  let (srv', rep) := handle srv r in
  put srv';;
  match rep with
  | Responds resp => ret resp
  | NoResponse msg => raise (RequestException msg)
  end.

Definition send (r : request) : M response :=
  call (Http r);;
  exchange r.

Definition requests_post (url : string) (json_body : list (string * string)) : M response :=
  send (POST url json_body).

(** [requests.get(url, headers=headers)].  Before anything goes to the
    server, [requests] (2.28 and later) refuses a header value with a
    carriage return or a line feed (InvalidHeader, a RequestException), and
    [http.client] encodes each value as latin-1, which raises a
    UnicodeEncodeError (a ValueError) for any other character. *)
Definition requests_get (url : string) (headers : list (string * string)) : M response :=
  call (Http (GET url headers));;
  match first_line_break headers with
  | Some value =>
      raise (RequestException
               ("Invalid leading whitespace, reserved character(s), or return " ++
                "character(s) in header value: " ++ repr (PStr value)))
  | None =>
      match first_latin1_error headers with
      | Some msg => raise (ValueError msg)
      | None => exchange (GET url headers)
      end
  end.

(** [response.json()] *)
Definition response_json (r : response) : M pyval :=
  match json r with
  | Some v => ret v
  | None => raise (ValueError "Expecting value: line 1 column 1 (char 0)")
  end.

(** [v.get(key)]: only a [dict] has the method. *)
Definition py_get (v : pyval) (key : string) : M pyval :=
  match v with
  | PDict items => ret (default PNone (assoc key items))
  | _ => raise (AttributeError ("'" ++ type_name v ++ "' object has no attribute 'get'"))
  end.

(** [v[:n]]: defined on [str] and [list]; on the other JSON values it
    raises.  A [dict] takes the slice for a key: a TypeError, because a slice
    cannot be hashed (from Python 3.12 on a KeyError, which is an [Exception]
    all the same). *)
Definition py_slice_to (v : pyval) (n : nat) : M pyval :=
  match v with
  | PStr s => ret (PStr (slice_to n s))
  | PList xs => ret (PList (take n xs))
  | PDict _ => raise (TypeError "unhashable type: 'slice'")
  | _ => raise (TypeError ("'" ++ type_name v ++ "' object is not subscriptable"))
  end.

(** [f"{v}"] *)
Definition py_format (v : pyval) : string :=
  match v with
  | PStr s => s
  | _ => repr v
  end.

Definition login_failed : string := "LOGIN FAILED!".
Definition no_token : string := "NO TOKEN RECEIVED!".

Definition test_auth : M unit :=
  let login_data := [ ("username", "jsbattig"); ("password", "test123") ] in
  print "1. Testing login...";;
  do login_response <- requests_post (api_base ++ "/auth/login") login_data;
  print ("Login Status: " ++ str_int (status_code login_response));;
  print ("Login Response: " ++ text login_response);;
  if negb (status_code login_response =? 200) then
    print login_failed;;
    ret tt
  else
  do login_result <- response_json login_response;
  do token <- py_get login_result "token";
  if negb (truthy token) then
    print no_token;;
    ret tt
  else
  do token_prefix <- py_slice_to token 50;
  print ("Token received: " ++ py_format token_prefix ++ "...");;
  let headers := [ ("Authorization", "Bearer " ++ py_format token) ] in
  print "2. Testing authenticated request...";;
  do repo_response <- requests_get (api_base ++ "/repositories") headers;
  print ("Repositories Status: " ++ str_int (status_code repo_response));;
  print ("Repositories Response: " ++ text repo_response);;
  if status_code repo_response =? 200 then
    print "✅ Authentication working!"
  else
    print "❌ Authentication failed!".

(** The [if __name__ == "__main__":] block. *)
Definition script : M unit :=
  call (SetEnv "TEST_USERNAME" "jsbattig");;
  call (SetEnv "TEST_PASSWORD" "test123");;
  try_except test_auth is_Exception
    (fun e => print ("Error: " ++ str_exn e)).

(** The requests a run sent, in order. *)
Definition requests_sent (t : list (event libcall)) : list request :=
  flat_map (fun c => match c with Http r => [r] | SetEnv _ _ => [] end) (calls t).

(** The reply of the server to the login request, from state [srv]. *)
Definition login_reply (srv : server) : reply :=
  snd (handle srv (POST (api_base ++ "/auth/login")
                        [ ("username", "jsbattig"); ("password", "test123") ])).

End WithServer.

End AuthProbe.

(* ================================================================== *)
(** * What the auditor's sections compute, stated on the file system *)
(* ================================================================== *)

Module AuditorSpec.
Import Py Auditor.

(** The text [read_file] returns for a path, if any. *)
Definition text_of (fs : filesystem) (path : string) : option string :=
  match fs !! path with
  | Some f => match read f with Text s => Some s | _ => None end
  | None => None
  end.

(** The path can be read and is not empty. *)
Definition usable (fs : filesystem) (path : string) : bool :=
  truthy (text_of fs path).

Definition target_text (fs : filesystem) : string :=
  default EmptyString (text_of fs test_file).

Section WithRegexEngine.
Variable re_search : string -> string -> bool.

Definition structure_ok (fs : filesystem) : bool :=
  usable fs test_file && usable fs working_test &&
  forallb (fun pd => re_search (fst pd) (target_text fs)) patterns_to_check.

Definition image_logic_ok (fs : filesystem) : bool :=
  usable fs test_file &&
  forallb (fun pd => re_search (fst pd) (target_text fs)) image_patterns.

Definition image_file_ok (fs : filesystem) : bool :=
  bool_decide (is_Some (fs !! image_path)).

Definition authentication_ok (fs : filesystem) : bool :=
  usable fs test_file && usable fs working_test &&
  forallb (fun p => re_search p (target_text fs)) auth_patterns.

Definition dependencies_ok (fs : filesystem) : bool :=
  usable fs csproj_path &&
  forallb (fun pkg => str_contains pkg (default EmptyString (text_of fs csproj_path)))
    required_packages.

Definition environment_ok (fs : filesystem) : bool :=
  usable fs env_path &&
  forallb (fun v => str_contains v (default EmptyString (text_of fs env_path)))
    required_vars.

(** All six sections of [main] pass. *)
Definition sections_ok (fs : filesystem) : bool :=
  structure_ok fs && image_logic_ok fs && image_file_ok fs &&
  authentication_ok fs && dependencies_ok fs && environment_ok fs.

(** Every regex of the three pattern lists matches in the target file. *)
Definition every_listed_regex_matches (fs : filesystem) : bool :=
  match text_of fs test_file with
  | Some content =>
      forallb (fun p => re_search p content)
        (map fst patterns_to_check ++ map fst image_patterns ++ auth_patterns)%list
  | None => false
  end.

End WithRegexEngine.

(** The searches a run performed, as (pattern, searched text). *)
Definition searches (t : list (event libcall)) : list (string * string) :=
  flat_map (fun c => match c with ReSearch p c => [(p, c)] | Open _ => [] end) (calls t).

(** The files a run opened. *)
Definition opened_paths (t : list (event libcall)) : list string :=
  flat_map (fun c => match c with Open p => [p] | ReSearch _ _ => [] end) (calls t).

(** A run applies the auditor's regular expressions to the file at [path]:
    each pattern of the structure list is searched in that file's text by
    [validate_test_structure], and each authentication pattern by
    [validate_authentication_pattern]. *)
Definition applies_patterns_to (re_search : string -> string -> bool)
    (fs : filesystem) (path : string) : Prop :=
  forall content, text_of fs path = Some content ->
    (forall p, In p (map fst patterns_to_check) ->
       In (p, content) (searches (trace_of (validate_test_structure re_search fs)))) /\
    (forall p, In p auth_patterns ->
       In (p, content)
          (searches (trace_of (validate_authentication_pattern re_search fs)))).

(** What the auditor may emit before its verdict: no line is the
    "all passed" banner, and every search is over the text of the target
    file. *)
Definition benign (fs : filesystem) (e : event libcall) : Prop :=
  match e with
  | Print line => line <> all_passed_banner
  | Call (Open _) => True
  | Call (ReSearch _ content) => text_of fs test_file = Some content
  end.

(** A run of [main] against [fs] that ends with verdict [ok]: the file
    system is as before, the process exits with 0 or 1 accordingly, and the
    banner is printed exactly when [ok]. *)
Definition verdict (fs : filesystem)
    (r : list (event libcall) * filesystem * outcome unit) (ok : bool) : Prop :=
  state_of r = fs /\
  outcome_of r = Raises (SystemExit (if ok then 0 else 1)) /\
  (all_passed_banner ∈ printed (trace_of r) <-> ok = true).

(** ** Example file systems *)

(** A test source in which every listed pattern occurs. *)
Definition complete_test_source : string :=
  "public class ImageAnalysisE2ETests : IClassFixture<WebApplicationFactory<Program>> {" ++ nl ++
  "  DotNetEnv.Env.Load(" ++ dq ++ ".env" ++ dq ++ ");" ++ nl ++
  "  var username = Environment.GetEnvironmentVariable(" ++ dq ++ "TEST_USERNAME" ++ dq ++ ");" ++ nl ++
  "  var password = Environment.GetEnvironmentVariable(" ++ dq ++ "TEST_PASSWORD" ++ dq ++ ");" ++ nl ++
  "  var loginRequest = new LoginRequest { Username = username," ++ nl ++
  "     Password = password };" ++ nl ++
  "  var r = await _client.PostAsJsonAsync(" ++ dq ++ "/auth/login" ++ dq ++ ", loginRequest);" ++ nl ++
  "  var c = CreateAuthenticatedClient(loginResult.Token);" ++ nl ++
  "  c.DefaultRequestHeaders.Authorization = new (" ++ dq ++ "Bearer" ++ dq ++ ", token);" ++ nl ++
  "  var imageBytes = await File.ReadAllBytesAsync(" ++ dq ++ "test-image.png" ++ dq ++ ");" ++ nl ++
  "  var form = new MultipartFormDataContent();" ++ nl ++
  "  var part = new ByteArrayContent(imageBytes);" ++ nl ++
  "  part.Headers.ContentType = new MediaTypeHeaderValue(" ++ dq ++ "image/png" ++ dq ++ ");" ++ nl ++
  "  await c.PostAsync(" ++ dq ++ "/jobs/1/images" ++ dq ++ ", form);" ++ nl ++
  "  // image analysis prompt: shapes, colors, text" ++ nl ++
  "  // rectangle circle triangle; blue red green" ++ nl ++
  "  JobStatusResponse s; s.Output.Should().Contain(" ++ dq ++ "blue" ++ dq ++ ");" ++ nl ++
  "  s.Output.Length.Should().BeGreaterThan(100);" ++ nl ++
  "}".

Definition complete_csproj : string :=
  "<PackageReference Include=" ++ dq ++ "Microsoft.AspNetCore.Mvc.Testing" ++ dq ++ " />" ++
  "<PackageReference Include=" ++ dq ++ "FluentAssertions" ++ dq ++ " />" ++
  "<PackageReference Include=" ++ dq ++ "xunit" ++ dq ++ " />" ++
  "<PackageReference Include=" ++ dq ++ "DotNetEnv" ++ dq ++ " />".

Definition text_file (s : string) : file :=
  {| getsize := Z.of_nat (String.length s); read := Text s |}.

(** A reference test that contains none of the patterns. *)
Definition plain_reference : string := "// nothing of interest".

(** A file system on which every section passes. *)
Definition fs_complete : filesystem :=
  <[test_file := text_file complete_test_source]>
  (<[working_test := text_file plain_reference]>
  (<[image_path := {| getsize := 2048; read := Undecodable "invalid start byte" |}]>
  (<[csproj_path := text_file complete_csproj]>
  (<[env_path := text_file ("TEST_USERNAME=u" ++ nl ++ "TEST_PASSWORD=p")]> ∅)))).

Definition fs_without_env : filesystem := delete env_path fs_complete.
Definition fs_without_image : filesystem := delete image_path fs_complete.
Definition fs_without_csproj : filesystem := delete csproj_path fs_complete.

End AuditorSpec.

(* ================================================================== *)
(** * What the image script computes, stated on the file system *)
(* ================================================================== *)

Module ImageSpec.
Import Py ImageScript.

(** The test [analyze_test_image] applies to the file at [path]. *)
Definition analysis_passes (fs : filesystem) (path : string) : bool :=
  match fs !! path with
  | Some f =>
      match pil f with
      | Opens o =>
          match o_getcolors o with
          | Colors _ => (100 <=? getsize f) && pair_eqb (o_size o) (400, 300)
          | DecodeFails _ => false
          end
      | CannotOpen _ => false
      end
  | None => false
  end.

(** The test as the specification words it: the file exists, is larger
    than 100 bytes, opens, and measures exactly 400 by 300 pixels. *)
Definition analysis_as_specified (fs : filesystem) (path : string) : bool :=
  match fs !! path with
  | Some f =>
      (100 <? getsize f) &&
      match pil f with
      | Opens o => pair_eqb (o_size o) (400, 300)
      | CannotOpen _ => false
      end
  | None => false
  end.

(** What [create_test_image] and its caller must not emit when the image is
    left alone: no save, and no "Creating test image" line. *)
Definition no_creation (e : event libcall) : Prop :=
  match e with
  | Print line => String.prefix "Creating test image at: " line = false
  | Call (ImageSave _ _) => False
  | Call (ImageOpen _) => True
  end.

(** ** The picture, in the words of the specification *)










(** The picture once everything is drawn, given the font that was loaded. *)
Definition finished_picture (fnt : option font) : image :=
  {| mode := "RGB"; size := (400, 300); background := "white";
     drawn :=
       [ Rectangle [50; 50; 150; 100] "blue" "black" 2;
         Ellipse [200; 50; 300; 150] "red" "black" 2;
         Polygon [(100, 200); (150, 250); (50, 250)] "green" "black" 2;
         DrawText (50, 10) "Test Image" "black" fnt;
         DrawText (50, 270) "Shapes: Rectangle, Circle, Triangle" "black" fnt ] |}.

(** Forget which font object was passed to [draw.text]. *)
Definition without_font (op : draw_op) : draw_op :=
  match op with
  | DrawText xy text fill _ => DrawText xy text fill None
  | _ => op
  end.

(** Dimensions and content structure of an image: its mode, size and
    background, and every shape and text with its colours and position. *)
Definition structure_of (img : image) : string * (Z * Z) * string * list draw_op :=
  (mode img, size img, background img, map without_font (drawn img)).

(** The image a run handed to [img.save], if it got that far. *)
Definition saved_image (t : list (event libcall)) : option (string * image) :=
  match flat_map (fun c => match c with ImageSave p img => [(p, img)] | _ => [] end)
          (calls t) with
  | [x] => Some x
  | _ => None
  end.

(** The file [create_test_image] leaves at [path] in the world [env]: the
    one the encoder writes for the finished picture, if the default font
    loads and the save goes through. *)
Definition written_file (env : pillow) (path : string) : option file :=
  match load_default env with
  | FontLoaded fnt =>
      match save_as env path (finished_picture (Some fnt)) with
      | Saved f => Some f
      | _ => None
      end
  | FontFails _ => None
  end.


(** ** Example worlds *)

(** How the encoders of the examples store an image: what is read back from
    the file has the size and mode of the image that was saved. *)
Definition stored (bytes : Z) (img : image) : file :=
  {| getsize := bytes;
     pil := Opens {| o_size := size img; o_mode := mode img; o_format := Some "PNG";
                     o_getcolors := Colors (Some [(1, [255; 255; 255])]) |} |}.

(** A working Pillow whose PNG encoder needs [bytes] bytes. *)
Definition pillow_writing (bytes : Z) : pillow :=
  {| save_as := fun _ img => Saved (stored bytes img);
     load_default := FontLoaded DefaultFont |}.

(** A Pillow whose encoder works but whose default font cannot be read. *)
Definition pillow_without_font (bytes : Z) : pillow :=
  {| save_as := fun _ img => Saved (stored bytes img);
     load_default := FontFails "cannot open resource" |}.

(** A working Pillow on a read-only disk. *)
Definition pillow_read_only : pillow :=
  {| save_as := fun path _ =>
       SaveOSError ("[Errno 30] Read-only file system: '" ++ path ++ "'");
     load_default := FontLoaded DefaultFont |}.

Definition directory : file := {| getsize := 4096; pil := CannotOpen "Is a directory" |}.

(** A file of exactly 100 bytes that decodes to a 400 by 300 image. *)
Definition hundred_byte_image : file :=
  {| getsize := 100;
     pil := Opens {| o_size := (400, 300); o_mode := "1"; o_format := Some "PNG";
                     o_getcolors := Colors (Some [(120000, [0])]) |} |}.

Definition fs_hundred_bytes : filesystem :=
  <[test_image_path := hundred_byte_image]> (<[tests_dir := directory]> ∅).

(** An image of another size already sits at the test-image path. *)
Definition fs_foreign_image : filesystem :=
  <[test_image_path := stored 2048 (Image_new "RGB" (640, 480) "black")]>
    (<[tests_dir := directory]> ∅).

Definition fs_empty_tests_dir : filesystem := <[tests_dir := directory]> ∅.

End ImageSpec.

(* ================================================================== *)
(** * Example servers for the authentication probe *)
(* ================================================================== *)

Module AuthSpec.
Import Py AuthProbe.

(** A stateless server that answers every request with [rep]. *)
Definition always (rep : reply) (srv : unit) (r : request) : unit * reply := (srv, rep).




(** A server whose token is a number. *)
Definition numeric_token : reply :=
  Responds {| status_code := 200; text := "{token: 7}";
              json := Some (PDict [("token", PInt 7)]) |}.


Definition simple_repr (v : pyval) : string := "<value>".

(** The failure line a run printed last, if any. *)
Definition last_line (t : list (event libcall)) : option string :=
  last (printed t).




End AuthSpec.

(* ================================================================== *)
(** * Further vocabulary for the properties of the three scripts *)
(* ================================================================== *)

Module PyMore.
Import Py.

(** [m], run from [s], ends in state [s'] with outcome [o], having issued
    exactly the library calls [cs], in that order. *)
Definition runs_to {St C A} (m : M St C A) (s : St) (cs : list C) (s' : St)
    (o : outcome A) : Prop :=
  exists t, m s = (t, s', o) /\ calls t = cs.

(** The line a run printed last, if it printed any. *)
Definition last_printed {St C A} (r : list (event C) * St * outcome A) : option string :=
  last (printed (trace_of r)).

End PyMore.

Module AuthMore.
Import Py AuthProbe AuthSpec.

(** The two requests the probe knows. *)
Definition login_request : request :=
  POST (api_base ++ "/auth/login") [ ("username", "jsbattig"); ("password", "test123") ].

Definition repositories_request (token : string) : request :=
  GET (api_base ++ "/repositories") [ ("Authorization", "Bearer " ++ token) ].







End AuthMore.

Module ImageMore.
Import Py ImageScript ImageSpec.

(** An encoder is faithful on [img] at [path] when the file it writes is at
    least 100 bytes long and reads back, pixel data included, with the size
    of [img]. *)
Definition faithful_save (env : pillow) (path : string) (img : image) : Prop :=
  exists f o cs,
    save_as env path img = Saved f /\ 100 <= getsize f /\
    pil f = Opens o /\ o_size o = size img /\ o_getcolors o = Colors cs.

(** How [analyze_test_image] words a failure. *)
Inductive diagnosis : Type :=
| Missing
| CannotAnalyze (msg : string)
| TooSmall
| WrongDimensions
| Passed.

(** The first failing check on the file at [path], in the order the checks
    are made. *)
Definition diagnose (fs : filesystem) (path : string) : diagnosis :=
  match fs !! path with
  | None => Missing
  | Some f =>
      match pil f with
      | CannotOpen msg => CannotAnalyze msg
      | Opens o =>
          match o_getcolors o with
          | DecodeFails msg => CannotAnalyze msg
          | Colors _ =>
              if getsize f <? 100 then TooSmall
              else if pair_eqb (o_size o) (400, 300) then Passed
              else WrongDimensions
          end
      end
  end.

(** The line that closes the report of a diagnosis. *)
Definition closing_line (path : string) (d : diagnosis) : string :=
  match d with
  | Missing => "❌ Image file does not exist: " ++ path
  | CannotAnalyze msg => "❌ Error analyzing image: " ++ msg
  | TooSmall => "❌ Image file is too small"
  | WrongDimensions => "❌ Image has unexpected dimensions"
  | Passed => "✅ Image analysis passed - ready for Claude Code testing"
  end.

(** Whether a run of [main] ends well: the test directory is there, and the
    image that is analysed (the one found, or else the one just written)
    passes. *)
Definition main_passes (env : pillow) (fs : filesystem) : bool :=
  bool_decide (is_Some (fs !! tests_dir)) &&
  match fs !! test_image_path with
  | Some _ => analysis_passes fs test_image_path
  | None =>
      match written_file env test_image_path with
      | Some f => analysis_passes (<[test_image_path := f]> fs) test_image_path
      | None => false
      end
  end.

(** A file of 40 bytes that opens with the wrong dimensions. *)
Definition tiny_wrong_image : file :=
  {| getsize := 40;
     pil := Opens {| o_size := (10, 10); o_mode := "RGB"; o_format := Some "PNG";
                     o_getcolors := Colors (Some [(100, [0; 0; 0])]) |} |}.

(** An encoder that truncates what it writes to 60 bytes. *)
Definition pillow_truncating : pillow := pillow_writing 60.

End ImageMore.

Module AuditorMore.
Import Py Auditor AuditorSpec.

(** The four files the auditor reads. *)
Definition read_paths : list string := [test_file; working_test; csproj_path; env_path].

(** The five paths the auditor looks at: the files it reads, and the image
    it only looks for. *)
Definition watched_paths : list string := image_path :: read_paths.

(** An event of a run that opens nothing but the four files. *)
Definition opens_known_files (e : event libcall) : Prop :=
  match e with
  | Call (Open path) => In path read_paths
  | _ => True
  end.

(** An event that is not a regex search. *)
Definition searches_nothing (e : event libcall) : Prop :=
  match e with
  | Call (ReSearch _ _) => False
  | _ => True
  end.

(** The warnings among the printed lines. *)
Definition warnings (t : list (event libcall)) : list string :=
  filter (fun line => String.prefix "   ⚠️ Warning: " line = true) (printed t).

Definition small_warning (size : Z) : string :=
  "   ⚠️ Warning: Image file seems small (" ++ str_int size ++ " bytes)".

Definition large_warning (size : Z) : string :=
  "   ⚠️ Warning: Image file seems large (" ++ str_int size ++ " bytes)".

(** The six sections of the report, under the names [main] gives them. *)
Definition sections (re_search : string -> string -> bool) : list (string * M bool) :=
  [ ("Test Structure", validate_test_structure re_search);
    ("Image Logic", validate_image_specific_logic re_search);
    ("Test Image File", validate_test_image_exists);
    ("Authentication", validate_authentication_pattern re_search);
    ("Dependencies", validate_project_dependencies);
    ("Environment", validate_env_file) ].

(** The line of the results table for a section. *)
Definition result_line (name : string) (result : bool) : string :=
  "   " ++ ljust 20 name ++ " " ++ (if result then "✅ PASS" else "❌ FAIL").

(** A file system that differs from [fs_complete] away from the watched
    paths only. *)
Definition fs_with_a_stray_file : filesystem :=
  <["/tmp/notes.txt" := text_file "stray"]> fs_complete.

(** The complete file system with an empty reference test. *)
Definition fs_empty_reference : filesystem :=
  <[working_test := text_file EmptyString]> fs_complete.

(** The complete file system without the reference test. *)
Definition fs_without_reference : filesystem := delete working_test fs_complete.

End AuditorMore.

(* ================================================================== *)
(** * Laws of the monad *)
(* ================================================================== *)

Module PyFacts.
Import Py.

Section Laws.
Context {St C : Type}.
Implicit Types (s : St) (t : list (event C)).

Lemma bind_returns {A B} (m : M St C A) (k : A -> M St C B) s t s' a :
  m s = (t, s', Returns a) ->
  bind m k s = ((t ++ trace_of (k a s'))%list, state_of (k a s'), outcome_of (k a s')).
Proof.
  intros Hm. unfold bind. rewrite Hm.
  destruct (k a s') as [[t' s''] o]. reflexivity.
Qed.

Lemma bind_raises {A B} (m : M St C A) (k : A -> M St C B) s t s' e :
  m s = (t, s', Raises e) -> bind m k s = (t, s', Raises e).
Proof. intros Hm. unfold bind. now rewrite Hm. Qed.

Lemma run_eta {A} (r : list (event C) * St * outcome A) :
  r = (trace_of r, state_of r, outcome_of r).
Proof. now destruct r as [[t s] o]. Qed.

Lemma printed_app t1 t2 : printed (t1 ++ t2) = (printed t1 ++ printed t2)%list.
Proof. unfold printed. apply flat_map_app. Qed.

Lemma calls_app t1 t2 : calls (t1 ++ t2) = (calls t1 ++ calls t2)%list.
Proof. unfold calls. apply flat_map_app. Qed.

(** A loop whose body leaves the state alone and only ever lowers the
    flag: the flag ends as the conjunction over the list. *)
Lemma for_each_flag {A} (xs : list A) (body : A -> bool -> M St C bool)
    (tr : A -> list (event C)) (ok : A -> bool) s :
  (forall x acc, body x acc s = (tr x, s, Returns (acc && ok x))) ->
  forall acc,
    for_each xs body acc s = (flat_map tr xs, s, Returns (acc && forallb ok xs)).
Proof.
  intros Hbody. induction xs as [|x xs IH]; intros acc; simpl.
  - unfold ret. now rewrite andb_true_r.
  - rewrite (bind_returns _ _ _ _ _ _ (Hbody x acc)), IH. simpl.
    now rewrite andb_assoc.
Qed.

Section ReadsOnly.
Variable P : event C -> Prop.

Lemma reads_only_ret {A} (a b : A) s : a = b -> reads_only P (ret a) s b.
Proof. intros ->. exists []. split; [reflexivity | constructor]. Qed.

Lemma reads_only_emit e s : P e -> reads_only P (emit e) s tt.
Proof. intros He. exists [e]. split; [reflexivity | now repeat constructor]. Qed.

Lemma reads_only_get s : reads_only P get s s.
Proof. exists []. split; [reflexivity | constructor]. Qed.

Lemma reads_only_bind {A B} (m : M St C A) (k : A -> M St C B) s a b :
  reads_only P m s a -> reads_only P (k a) s b -> reads_only P (bind m k) s b.
Proof.
  intros (t & Hm & Ht) (t' & Hk & Ht').
  exists (t ++ t')%list. split.
  - rewrite (bind_returns _ _ _ _ _ _ Hm), Hk. reflexivity.
  - apply Forall_app. now split.
Qed.

Lemma reads_only_for_each {A} (xs : list A) (body : A -> bool -> M St C bool)
    (ok : A -> bool) s :
  (forall x acc, reads_only P (body x acc) s (acc && ok x)) ->
  forall acc, reads_only P (for_each xs body acc) s (acc && forallb ok xs).
Proof.
  intros Hbody. induction xs as [|x xs IH]; intros acc; simpl.
  - apply reads_only_ret. now rewrite andb_true_r.
  - eapply reads_only_bind; [apply Hbody|].
    rewrite andb_assoc. apply IH.
Qed.

Lemma reads_only_for_each_all {A} (xs : list A) (body : A -> bool -> M St C bool)
    (ok : A -> bool) s :
  (forall x acc, reads_only P (body x acc) s (acc && ok x)) ->
  reads_only P (for_each xs body true) s (forallb ok xs).
Proof. intros Hbody. apply (reads_only_for_each xs body ok s Hbody true). Qed.

Lemma reads_only_outcome {A} (m : M St C A) s a :
  reads_only P m s a -> outcome_of (m s) = Returns a.
Proof. intros (t & Hm & _). now rewrite Hm. Qed.

Lemma reads_only_state {A} (m : M St C A) s a :
  reads_only P m s a -> state_of (m s) = s.
Proof. intros (t & Hm & _). now rewrite Hm. Qed.

Lemma reads_only_trace {A} (m : M St C A) s a :
  reads_only P m s a -> Forall P (trace_of (m s)).
Proof. intros (t & Hm & Ht). now rewrite Hm. Qed.
End ReadsOnly.

(** The same rules, keeping the exact list of library calls. *)

Lemma issues_ret {A} (a b : A) s : a = b -> issues (ret a) s b (@nil C).
Proof. intros ->. now exists []. Qed.

Lemma issues_print line s : issues (print line) s tt (@nil C).
Proof. now exists [Print line]. Qed.

Lemma issues_call (c : C) s : issues (call c) s tt [c].
Proof. now exists [Call c]. Qed.

Lemma issues_bind {A B} (m : M St C A) (k : A -> M St C B) s a b cs cs' :
  issues m s a cs -> issues (k a) s b cs' -> issues (bind m k) s b (cs ++ cs')%list.
Proof.
  intros (t & Hm & Ht) (t' & Hk & Ht').
  exists (t ++ t')%list. split.
  - rewrite (bind_returns _ _ _ _ _ _ Hm), Hk. reflexivity.
  - rewrite calls_app. now subst.
Qed.

Lemma issues_for_each {A} (xs : list A) (body : A -> bool -> M St C bool)
    (ok : A -> bool) (cs : A -> list C) s :
  (forall x acc, issues (body x acc) s (acc && ok x) (cs x)) ->
  forall acc, issues (for_each xs body acc) s (acc && forallb ok xs) (flat_map cs xs).
Proof.
  intros Hbody. induction xs as [|x xs IH]; intros acc; simpl.
  - apply issues_ret. now rewrite andb_true_r.
  - eapply issues_bind; [apply Hbody|].
    rewrite andb_assoc. apply IH.
Qed.

Lemma issues_for_each_all {A} (xs : list A) (body : A -> bool -> M St C bool)
    (ok : A -> bool) (cs : A -> list C) s :
  (forall x acc, issues (body x acc) s (acc && ok x) (cs x)) ->
  issues (for_each xs body true) s (forallb ok xs) (flat_map cs xs).
Proof. intros Hbody. apply (issues_for_each xs body ok cs s Hbody true). Qed.

Lemma issues_eq {A} (m : M St C A) s a cs cs' :
  issues m s a cs -> cs = cs' -> issues m s a cs'.
Proof. now intros H <-. Qed.

Lemma issues_trace {A} (m : M St C A) s a cs :
  issues m s a cs -> calls (trace_of (m s)) = cs.
Proof. intros (t & Hm & Ht). now rewrite Hm. Qed.
(** The rules for runs that may end in an exception. *)

Section Ends.
Variable P : event C -> Prop.

Lemma ends_ret {A} (a b : A) s : a = b -> ends P (ret a) s (Returns b) [].
Proof. intros ->. exists []. repeat split. constructor. Qed.

Lemma ends_print line s : P (Print line) -> ends P (print line) s (Returns tt) [].
Proof. intros Hp. exists [Print line]. repeat split. now repeat constructor. Qed.

Lemma ends_call c s : P (Call c) -> ends P (call c) s (Returns tt) [c].
Proof. intros Hp. exists [Call c]. repeat split. now repeat constructor. Qed.

Lemma ends_raise {A} e s : ends P (raise e : M St C A) s (Raises e) [].
Proof. exists []. repeat split. constructor. Qed.

Lemma ends_get s : ends P get s (Returns s) [].
Proof. exists []. repeat split. constructor. Qed.

Lemma ends_bind {A B} (m : M St C A) (k : A -> M St C B) s a o cs cs' :
  ends P m s (Returns a) cs -> ends P (k a) s o cs' ->
  ends P (bind m k) s o (cs ++ cs')%list.
Proof.
  intros (t & Hm & Ht & Hc) (t' & Hk & Ht' & Hc').
  exists (t ++ t')%list. split; [|split].
  - rewrite (bind_returns _ _ _ _ _ _ Hm), Hk. reflexivity.
  - apply Forall_app. now split.
  - rewrite calls_app. now subst.
Qed.

Lemma ends_bind_raises {A B} (m : M St C A) (k : A -> M St C B) s e cs :
  ends P m s (Raises e) cs -> ends P (bind m k) s (Raises e) cs.
Proof.
  intros (t & Hm & Ht & Hc). exists t. split; [|now split].
  now rewrite (bind_raises _ _ _ _ _ _ Hm).
Qed.

Lemma ends_try_returns {A} (m : M St C A) catches h s a cs :
  ends P m s (Returns a) cs -> ends P (try_except m catches h) s (Returns a) cs.
Proof.
  intros (t & Hm & Ht & Hc). exists t. split; [|now split].
  unfold try_except. now rewrite Hm.
Qed.

Lemma ends_try_caught {A} (m : M St C A) catches h s e o cs cs' :
  ends P m s (Raises e) cs -> catches e = true -> ends P (h e) s o cs' ->
  ends P (try_except m catches h) s o (cs ++ cs')%list.
Proof.
  intros (t & Hm & Ht & Hc) He (t' & Hh & Ht' & Hc').
  exists (t ++ t')%list. split; [|split].
  - unfold try_except. now rewrite Hm, He, Hh.
  - apply Forall_app. now split.
  - rewrite calls_app. now subst.
Qed.

Lemma ends_try_uncaught {A} (m : M St C A) catches h s e cs :
  ends P m s (Raises e) cs -> catches e = false ->
  ends P (try_except m catches h) s (Raises e) cs.
Proof.
  intros (t & Hm & Ht & Hc) He. exists t. split; [|now split].
  unfold try_except. now rewrite Hm, He.
Qed.

Lemma ends_eq {A} (m : M St C A) s o o' cs cs' :
  ends P m s o cs -> o = o' -> cs = cs' -> ends P m s o' cs'.
Proof. now intros H <- <-. Qed.

Lemma ends_run {A} (m : M St C A) s o cs :
  ends P m s o cs ->
  state_of (m s) = s /\ outcome_of (m s) = o /\
  Forall P (trace_of (m s)) /\ calls (trace_of (m s)) = cs.
Proof. intros (t & Hm & Ht & Hc). rewrite Hm. now repeat split. Qed.
End Ends.
End Laws.

End PyFacts.

(* ================================================================== *)
(** * The pattern auditor: properties *)
(* ================================================================== *)

Module AuditorFacts.
Import Py PyFacts Auditor AuditorSpec.

(** A printed line that starts differently from the banner is not it. *)
Ltac not_banner :=
  unfold benign, all_passed_banner; simpl;
  let H := fresh in intros H; discriminate H.

Ltac quiet_print := apply reads_only_emit; not_banner.

Section WithRegexEngine.
Variable re_search : string -> string -> bool.

Lemma os_path_exists_reads P fs path :
  reads_only P (os_path_exists path) fs (bool_decide (is_Some (fs !! path))).
Proof. exists []. split; [reflexivity | constructor]. Qed.

Lemma read_file_reads fs path :
  reads_only (benign fs) (read_file path) fs (text_of fs path).
Proof.
  unfold reads_only, read_file, open_and_read, text_of, try_except, bind, call, emit, get.
  cbv beta iota.
  destruct (fs !! path) as [f|]; [destruct (read f)|]; simpl;
    eexists; (split; [reflexivity|]); repeat constructor; not_banner.
Qed.

Lemma usable_target fs :
  usable fs test_file = true -> text_of fs test_file = Some (target_text fs).
Proof.
  unfold usable, target_text. destruct (text_of fs test_file); [reflexivity|discriminate].
Qed.

(** One round of a pattern loop. *)
Lemma search_round_reads fs pattern (hit miss : string) acc :
  text_of fs test_file = Some (target_text fs) ->
  hit <> all_passed_banner -> miss <> all_passed_banner ->
  reads_only (benign fs)
    (do found <- re_search_call re_search pattern (target_text fs);
     if found then print hit;; ret acc else print miss;; ret false)
    fs (acc && re_search pattern (target_text fs)).
Proof.
  intros Ht Hhit Hmiss.
  unfold reads_only, re_search_call, bind, call, print, emit, ret. simpl.
  destruct (re_search pattern (target_text fs)); simpl;
    eexists; (split; [now rewrite ?andb_true_r, ?andb_false_r|]);
    repeat constructor; assumption.
Qed.

Lemma missing_unusable (fs : filesystem) path : fs !! path = None -> usable fs path = false.
Proof. unfold usable, text_of. now intros ->. Qed.

Ltac step :=
  eapply reads_only_bind;
  [ first [ quiet_print | apply os_path_exists_reads | apply read_file_reads ] | ].

Ltac finish_false := apply reads_only_ret; symmetry.

Lemma validate_test_structure_reads fs :
  reads_only (benign fs) (validate_test_structure re_search) fs
    (structure_ok re_search fs).
Proof.
  unfold validate_test_structure, structure_ok.
  generalize patterns_to_check. intros patterns.
  step. step.
  destruct (fs !! test_file) as [ft|] eqn:Et; simpl.
  2:{ step. finish_false. now rewrite (missing_unusable _ _ Et). }
  step.
  destruct (fs !! working_test) as [fw|] eqn:Ew; simpl.
  2:{ step. finish_false. now rewrite (missing_unusable _ _ Ew), andb_false_r. }
  step. step. fold (usable fs test_file) (usable fs working_test).
  destruct (usable fs test_file) eqn:Ut; simpl; [|now finish_false].
  destruct (usable fs working_test) eqn:Uw; simpl; [|now finish_false].
  step.
  eapply reads_only_bind; [|apply reads_only_ret; reflexivity].
  apply (reads_only_for_each_all _ _ _ (fun pd => re_search (fst pd) (target_text fs))).
  intros [pattern description] acc.
  apply search_round_reads; [now apply usable_target | not_banner | not_banner].
Qed.

Lemma validate_image_specific_logic_reads fs :
  reads_only (benign fs) (validate_image_specific_logic re_search) fs
    (image_logic_ok re_search fs).
Proof.
  unfold validate_image_specific_logic, image_logic_ok.
  generalize image_patterns. intros patterns.
  step. step. fold (usable fs test_file).
  destruct (usable fs test_file) eqn:Ut; simpl; [|now finish_false].
  step.
  eapply reads_only_bind; [|apply reads_only_ret; reflexivity].
  apply (reads_only_for_each_all _ _ _ (fun pd => re_search (fst pd) (target_text fs))).
  intros [pattern description] acc.
  apply search_round_reads; [now apply usable_target | not_banner | not_banner].
Qed.

Lemma validate_authentication_pattern_reads fs :
  reads_only (benign fs) (validate_authentication_pattern re_search) fs
    (authentication_ok re_search fs).
Proof.
  unfold validate_authentication_pattern, authentication_ok.
  generalize auth_patterns. intros patterns.
  step. step. step. fold (usable fs test_file) (usable fs working_test).
  destruct (usable fs test_file) eqn:Ut; simpl; [|now finish_false].
  destruct (usable fs working_test) eqn:Uw; simpl; [|now finish_false].
  step.
  eapply reads_only_bind; [|apply reads_only_ret; reflexivity].
  apply (reads_only_for_each_all _ _ _ (fun p => re_search p (target_text fs))).
  intros pattern acc.
  apply search_round_reads; [now apply usable_target | not_banner | not_banner].
Qed.

Lemma os_path_getsize_reads P (fs : filesystem) path f :
  fs !! path = Some f -> reads_only P (os_path_getsize path) fs (getsize f).
Proof.
  intros Hf. exists []. split; [|constructor].
  unfold os_path_getsize, bind, get. now rewrite Hf.
Qed.

Lemma validate_test_image_exists_reads fs :
  reads_only (benign fs) (validate_test_image_exists) fs (image_file_ok fs).
Proof.
  unfold validate_test_image_exists, image_file_ok.
  step. step.
  destruct (fs !! image_path) as [f|] eqn:Ef; simpl.
  2:{ step. now apply reads_only_ret. }
  eapply reads_only_bind; [apply os_path_getsize_reads; exact Ef|].
  step. step.
  eapply reads_only_bind.
  { destruct (getsize f <? 1000); [quiet_print | now apply reads_only_ret]. }
  eapply reads_only_bind.
  { destruct (getsize f >? 50000); [quiet_print | now apply reads_only_ret]. }
  now apply reads_only_ret.
Qed.

(** One round of a substring loop. *)
Lemma contains_round_reads fs needle content (hit miss : string) acc :
  hit <> all_passed_banner -> miss <> all_passed_banner ->
  reads_only (benign fs)
    (if str_contains needle content then print hit;; ret acc
     else print miss;; ret false)
    fs (acc && str_contains needle content).
Proof.
  intros Hhit Hmiss. unfold reads_only, bind, print, emit, ret.
  destruct (str_contains needle content); simpl;
    eexists; (split; [now rewrite ?andb_true_r, ?andb_false_r|]);
    repeat constructor; assumption.
Qed.

Lemma validate_project_dependencies_reads fs :
  reads_only (benign fs) validate_project_dependencies fs (dependencies_ok fs).
Proof.
  unfold validate_project_dependencies, dependencies_ok.
  generalize required_packages. intros packages.
  step. step.
  destruct (fs !! csproj_path) as [f|] eqn:Ef; simpl.
  2:{ step. finish_false. now rewrite (missing_unusable _ _ Ef). }
  step. fold (usable fs csproj_path).
  destruct (usable fs csproj_path) eqn:Uc; simpl; [|now finish_false].
  step.
  eapply reads_only_bind; [|apply reads_only_ret; reflexivity].
  apply (reads_only_for_each_all _ _ _
           (fun pkg => str_contains pkg (default EmptyString (text_of fs csproj_path)))).
  intros package acc.
  apply contains_round_reads; not_banner.
Qed.

Lemma validate_env_file_reads fs :
  reads_only (benign fs) validate_env_file fs (environment_ok fs).
Proof.
  unfold validate_env_file, environment_ok.
  generalize required_vars. intros vars.
  step. step.
  destruct (fs !! env_path) as [f|] eqn:Ef; simpl.
  2:{ step. finish_false. now rewrite (missing_unusable _ _ Ef). }
  step. fold (usable fs env_path).
  destruct (usable fs env_path) eqn:Ue; simpl; [|now finish_false].
  step.
  eapply reads_only_bind; [|apply reads_only_ret; reflexivity].
  apply (reads_only_for_each_all _ _ _
           (fun v => str_contains v (default EmptyString (text_of fs env_path)))).
  intros var acc.
  apply contains_round_reads; not_banner.
Qed.

Lemma generate_test_summary_reads fs :
  reads_only (benign fs) generate_test_summary fs tt.
Proof. unfold generate_test_summary. repeat step. quiet_print. Qed.

(** ** The verdict of [main] *)

Lemma benign_no_banner fs t :
  Forall (benign fs) t -> all_passed_banner ∉ printed t.
Proof.
  induction 1 as [|e t He _ IH]; simpl.
  - apply not_elem_of_nil.
  - destruct e as [line|c]; simpl; [|exact IH].
    rewrite elem_of_cons. intros [Heq|Hin]; [|now apply IH].
    now apply He.
Qed.

Lemma verdict_bind {A} fs (m : M A) (k : A -> M unit) a ok :
  reads_only (benign fs) m fs a -> verdict fs (k a fs) ok ->
  verdict fs (bind m k fs) ok.
Proof.
  intros (t & Hm & Ht) (Hs & Ho & Hb). unfold verdict.
  rewrite (bind_returns _ _ _ _ _ _ Hm).
  unfold trace_of, state_of, outcome_of in *. cbn [fst snd] in *.
  repeat split; try assumption.
  - rewrite printed_app, elem_of_app. intros [Hin|Hin].
    + now apply benign_no_banner in Ht.
    + now apply Hb.
  - intros Hok. rewrite printed_app, elem_of_app. right. now apply Hb.
Qed.

Ltac vstep lem := eapply verdict_bind; [ first [ quiet_print | apply lem ] | cbv beta ].

Lemma main_verdict fs : verdict fs (main re_search fs) (sections_ok re_search fs).
Proof.
  unfold main.
  vstep I. vstep I.
  vstep validate_test_structure_reads.
  vstep validate_image_specific_logic_reads.
  vstep validate_test_image_exists_reads.
  vstep validate_authentication_pattern_reads.
  vstep validate_project_dependencies_reads.
  vstep validate_env_file_reads.
  vstep generate_test_summary_reads.
  vstep I. vstep I.
  unfold sections_ok.
  generalize (structure_ok re_search fs) (image_logic_ok re_search fs)
    (image_file_ok fs) (authentication_ok re_search fs) (dependencies_ok fs)
    (environment_ok fs).
  intros r1 r2 r3 r4 r5 r6.
  match goal with
  | |- verdict _ (bind (for_each ?l _ _) _ _) ?ok =>
      replace ok with (forallb snd l)
        by (destruct r1, r2, r3, r4, r5, r6; reflexivity);
      generalize l
  end.
  intros validation_results.
  eapply verdict_bind.
  { apply (reads_only_for_each_all _ _ _ snd).
    intros [name result] acc. unfold reads_only, bind, print, emit, ret.
    destruct result, acc; simpl; eexists; (split; [reflexivity|]);
      repeat constructor; not_banner. }
  generalize (forallb snd validation_results). intros all_passed.
  eapply verdict_bind; [quiet_print|].
  unfold verdict.
  destruct all_passed; simpl; (split; [reflexivity|]); (split; [reflexivity|]); split.
  - reflexivity.
  - intros _. apply list_elem_of_here.
  - rewrite !elem_of_cons, elem_of_nil. unfold all_passed_banner.
    intros [H|[H|[H|[]]]]; discriminate H.
  - discriminate.
Qed.

(** ** Which library calls the two comparing sections issue *)

Lemma read_file_issues fs path :
  issues (read_file path) fs (text_of fs path) [Open path].
Proof.
  unfold issues, read_file, open_and_read, text_of, try_except, bind, call, emit, get.
  cbv beta iota.
  destruct (fs !! path) as [f|]; [destruct (read f)|]; simpl;
    eexists; (split; reflexivity).
Qed.

Lemma search_round_issues fs pattern content (hit miss : string) acc :
  issues
    (do found <- re_search_call re_search pattern content;
     if found then print hit;; ret acc else print miss;; ret false)
    fs (acc && re_search pattern content) [ReSearch pattern content].
Proof.
  unfold issues, re_search_call, bind, call, print, emit, ret. simpl.
  destruct (re_search pattern content); simpl;
    eexists; (split; [now rewrite ?andb_true_r, ?andb_false_r|reflexivity]).
Qed.

Ltac istep :=
  eapply issues_bind;
  [ first [ apply issues_print | apply read_file_issues
          | exists []; split; reflexivity ] | ].

Lemma validate_test_structure_issues fs :
  usable fs test_file = true -> usable fs working_test = true ->
  issues (validate_test_structure re_search) fs
    (forallb (fun pd => re_search (fst pd) (target_text fs)) patterns_to_check)
    ([Open test_file; Open working_test] ++
     flat_map (fun pd => [ReSearch (fst pd) (target_text fs)]) patterns_to_check).
Proof.
  intros Ut Uw.
  unfold validate_test_structure.
  generalize patterns_to_check. intros patterns.
  eapply issues_eq.
  - istep. istep.
    destruct (fs !! test_file) as [ft|] eqn:Et; simpl.
    2:{ now rewrite (missing_unusable _ _ Et) in Ut. }
    istep.
    destruct (fs !! working_test) as [fw|] eqn:Ew; simpl.
    2:{ now rewrite (missing_unusable _ _ Ew) in Uw. }
    istep. istep. fold (usable fs test_file) (usable fs working_test).
    rewrite Ut, Uw. simpl.
    istep.
    eapply issues_bind; [|apply issues_ret; reflexivity].
    apply (issues_for_each_all _ _ (fun pd => re_search (fst pd) (target_text fs))
             (fun pd => [ReSearch (fst pd) (target_text fs)]) fs).
    intros [pattern description] acc. apply search_round_issues.
  - simpl. now rewrite app_nil_r.
Qed.

Lemma validate_authentication_pattern_issues fs :
  usable fs test_file = true -> usable fs working_test = true ->
  issues (validate_authentication_pattern re_search) fs
    (forallb (fun p => re_search p (target_text fs)) auth_patterns)
    ([Open test_file; Open working_test] ++
     flat_map (fun p => [ReSearch p (target_text fs)]) auth_patterns).
Proof.
  intros Ut Uw.
  unfold validate_authentication_pattern.
  generalize auth_patterns. intros patterns.
  eapply issues_eq.
  - istep. istep. istep. fold (usable fs test_file) (usable fs working_test).
    rewrite Ut, Uw. simpl.
    istep.
    eapply issues_bind; [|apply issues_ret; reflexivity].
    apply (issues_for_each_all _ _ (fun p => re_search p (target_text fs))
             (fun p => [ReSearch p (target_text fs)]) fs).
    intros pattern acc. apply search_round_issues.
  - simpl. now rewrite app_nil_r.
Qed.

(** ** Consequences for the whole script *)

Lemma exit_code_verdict fs :
  exit_code re_search fs = if sections_ok re_search fs then 0 else 1.
Proof.
  destruct (main_verdict fs) as (_ & Ho & _).
  unfold exit_code. now rewrite Ho.
Qed.

Lemma forallb_map_fst (f : string -> bool) (l : list (string * string)) :
  forallb f (map fst l) = forallb (fun pd => f (fst pd)) l.
Proof. induction l as [|x l IH]; simpl; [reflexivity | now rewrite IH]. Qed.

Lemma sections_ok_spelled_out fs :
  sections_ok re_search fs = true <->
  every_listed_regex_matches re_search fs = true /\
  usable fs test_file = true /\ usable fs working_test = true /\
  is_Some (fs !! image_path) /\
  dependencies_ok fs = true /\ environment_ok fs = true.
Proof.
  unfold sections_ok, structure_ok, image_logic_ok, authentication_ok,
    image_file_ok, every_listed_regex_matches, target_text, usable.
  assert (Himg : is_Some (fs !! image_path) <->
                 bool_decide (is_Some (fs !! image_path)) = true)
    by (symmetry; apply bool_decide_eq_true).
  revert Himg.
  generalize (bool_decide (is_Some (fs !! image_path))). intros b0.
  generalize (is_Some (fs !! image_path)). intros P0 Himg.
  destruct (text_of fs test_file) as [content|]; simpl truthy.
  - rewrite !forallb_app, !forallb_map_fst. simpl default.
    generalize (forallb (fun pd => re_search (fst pd) content) patterns_to_check)
      (forallb (fun pd => re_search (fst pd) content) image_patterns)
      (forallb (fun p => re_search p content) auth_patterns)
      (nonempty content) (truthy (text_of fs working_test))
      (dependencies_ok fs) (environment_ok fs).
    intros b1 b2 b3 b4 b5 b6 b7.
    destruct b0, b1, b2, b3, b4, b5, b6, b7; simpl; intuition congruence.
  - simpl. intuition congruence.
Qed.

(** C1 (as amended): the auditor exits with code 0, and prints the
    "all passed" banner, exactly when all six of its sections pass: every
    regex of the three pattern lists (13 structure, 9 image and 6
    authentication patterns) matches in the target test file, the target
    and the reference file can both be read and are not empty,
    test-image.png exists, the .csproj can be read and names the four
    required packages, and .env can be read and names both variables.
    In every other case it exits with code 1. *)
Theorem C1_exit_code_zero_iff_all_sections_pass fs :
  (exit_code re_search fs = 0 <->
     every_listed_regex_matches re_search fs = true /\
     usable fs test_file = true /\ usable fs working_test = true /\
     is_Some (fs !! image_path) /\
     dependencies_ok fs = true /\ environment_ok fs = true) /\
  (exit_code re_search fs <> 0 -> exit_code re_search fs = 1) /\
  (reports_all_passed re_search fs = true <-> exit_code re_search fs = 0) /\
  (length patterns_to_check = 13 /\ length image_patterns = 9 /\
   length auth_patterns = 6)%nat.
Proof.
  pose proof (exit_code_verdict fs) as Hexit.
  destruct (main_verdict fs) as (_ & _ & Hbanner).
  rewrite <- sections_ok_spelled_out.
  unfold reports_all_passed. rewrite bool_decide_eq_true, Hbanner, Hexit.
  destruct (sections_ok re_search fs); repeat split; intros; congruence.
Qed.

(** C3: a missing .env, a missing test-image.png and a missing .csproj
    each make their own section ([validate_env_file],
    [validate_test_image_exists], [validate_project_dependencies]) return
    False, whatever the rest of the file system holds, and a section that
    returns False makes the script exit with code 1. *)
Theorem C3_missing_file_fails_its_section_and_exit_code_1 fs :
  (fs !! env_path = None ->
     outcome_of (validate_env_file fs) = Returns false /\
     exit_code re_search fs = 1) /\
  (fs !! image_path = None ->
     outcome_of (validate_test_image_exists fs) = Returns false /\
     exit_code re_search fs = 1) /\
  (fs !! csproj_path = None ->
     outcome_of (validate_project_dependencies fs) = Returns false /\
     exit_code re_search fs = 1) /\
  (outcome_of (validate_env_file fs) = Returns false \/
   outcome_of (validate_test_image_exists fs) = Returns false \/
   outcome_of (validate_project_dependencies fs) = Returns false ->
     exit_code re_search fs = 1).
Proof.
  pose proof (exit_code_verdict fs) as Hexit.
  pose proof (reads_only_outcome _ _ _ _ (validate_env_file_reads fs)) as He.
  pose proof (reads_only_outcome _ _ _ _ (validate_test_image_exists_reads fs)) as Hi.
  pose proof (reads_only_outcome _ _ _ _ (validate_project_dependencies_reads fs)) as Hd.
  rewrite He, Hi, Hd, Hexit. unfold sections_ok.
  assert (Henv : fs !! env_path = None -> environment_ok fs = false).
  { intros Hm. unfold environment_ok. now rewrite (missing_unusable _ _ Hm). }
  assert (Himg : fs !! image_path = None -> image_file_ok fs = false).
  { intros Hm. unfold image_file_ok. now rewrite Hm. }
  assert (Hdep : fs !! csproj_path = None -> dependencies_ok fs = false).
  { intros Hm. unfold dependencies_ok. now rewrite (missing_unusable _ _ Hm). }
  repeat split.
  - now rewrite Henv.
  - rewrite Henv by assumption. now rewrite !andb_false_r.
  - now rewrite Himg.
  - rewrite Himg by assumption. now rewrite !andb_false_r.
  - now rewrite Hdep.
  - rewrite Hdep by assumption. now rewrite !andb_false_r.
  - intros [H|[H|H]]; injection H as ->; now rewrite !andb_false_r.
Qed.

Lemma searches_app t1 t2 : searches (t1 ++ t2) = (searches t1 ++ searches t2)%list.
Proof. unfold searches. now rewrite calls_app, flat_map_app. Qed.

Lemma benign_searches fs t p content :
  Forall (benign fs) t -> In (p, content) (searches t) ->
  text_of fs test_file = Some content.
Proof.
  induction 1 as [|e t He _ IH]; simpl; [tauto|].
  change (e :: t) with ([e] ++ t)%list. rewrite searches_app, in_app_iff.
  intros [Hin|Hin]; [|now apply IH].
  destruct e as [line|[path|p' c']]; simpl in Hin; try tauto.
  destruct Hin as [[= -> ->]|[]]. exact He.
Qed.

(** C5 (as amended): the auditor applies its regular expressions to the
    target test file only.  Every search [validate_test_structure] and
    [validate_authentication_pattern] perform is over the text of
    ImageAnalysisE2ETests.cs; when both files can be read and are not
    empty, each pattern of the list is searched there once, in list
    order.  The reference file ComplexE2ETests.cs is opened and read, and
    only tested for being non-empty. *)
Theorem C5_patterns_are_searched_in_the_target_only fs :
  (forall p content,
     In (p, content)
        (searches (trace_of (validate_test_structure re_search fs)) ++
         searches (trace_of (validate_authentication_pattern re_search fs))) ->
     text_of fs test_file = Some content) /\
  (usable fs test_file = true -> usable fs working_test = true ->
     searches (trace_of (validate_test_structure re_search fs)) =
       map (fun pd => (fst pd, target_text fs)) patterns_to_check /\
     searches (trace_of (validate_authentication_pattern re_search fs)) =
       map (fun p => (p, target_text fs)) auth_patterns /\
     opened_paths (trace_of (validate_test_structure re_search fs)) =
       [test_file; working_test] /\
     opened_paths (trace_of (validate_authentication_pattern re_search fs)) =
       [test_file; working_test] /\
     applies_patterns_to re_search fs test_file).
Proof.
  split.
  - intros p content Hin. apply in_app_iff in Hin as [Hin|Hin].
    + eapply benign_searches; [|exact Hin].
      eapply reads_only_trace, validate_test_structure_reads.
    + eapply benign_searches; [|exact Hin].
      eapply reads_only_trace, validate_authentication_pattern_reads.
  - intros Ut Uw.
    pose proof (issues_trace _ _ _ _ (validate_test_structure_issues fs Ut Uw)) as Hs.
    pose proof (issues_trace _ _ _ _ (validate_authentication_pattern_issues fs Ut Uw)) as Ha.
    assert (Hs' : searches (trace_of (validate_test_structure re_search fs)) =
                  map (fun pd => (fst pd, target_text fs)) patterns_to_check).
    { unfold searches. rewrite Hs. reflexivity. }
    assert (Ha' : searches (trace_of (validate_authentication_pattern re_search fs)) =
                  map (fun p => (p, target_text fs)) auth_patterns).
    { unfold searches. rewrite Ha. reflexivity. }
    split; [exact Hs'|]. split; [exact Ha'|].
    split; [unfold opened_paths; rewrite Hs; reflexivity|].
    split; [unfold opened_paths; rewrite Ha; reflexivity|].
    intros content Hc. rewrite (usable_target _ Ut) in Hc. injection Hc as <-.
    split; intros p Hp.
    + rewrite Hs'. apply in_map_iff in Hp as (pd & <- & Hpd).
      apply in_map_iff. now exists pd.
    + rewrite Ha'. apply in_map_iff. now exists p.
Qed.

Lemma test_file_is_not_working_test : working_test <> test_file.
Proof. apply String.eqb_neq. vm_compute. reflexivity. Qed.

Lemma usable_text (f : file) (fs : filesystem) path content :
  read f = Text content -> content <> EmptyString ->
  usable (<[path := f]> fs) path = true.
Proof.
  intros Hr Hne. unfold usable, text_of. rewrite lookup_insert_eq, Hr.
  now destruct content.
Qed.

(** C8: in [validate_test_structure] the contents of the reference file do
    not influence the result.  For any two readable, non-empty reference
    files, with the rest of the file system (the target file included) the
    same, the function returns the same value; that value is decided by
    the target file alone. *)
Theorem C8_reference_contents_do_not_influence_the_result
    fs (f1 f2 : file) (ref1 ref2 : string) :
  read f1 = Text ref1 -> read f2 = Text ref2 ->
  ref1 <> EmptyString -> ref2 <> EmptyString ->
  outcome_of (validate_test_structure re_search (<[working_test := f1]> fs)) =
  outcome_of (validate_test_structure re_search (<[working_test := f2]> fs)) /\
  outcome_of (validate_test_structure re_search (<[working_test := f1]> fs)) =
  Returns (usable fs test_file &&
           forallb (fun pd => re_search (fst pd) (target_text fs)) patterns_to_check).
Proof.
  intros Hr1 Hr2 Hne1 Hne2.
  assert (Hres : forall f ref, read f = Text ref -> ref <> EmptyString ->
            outcome_of (validate_test_structure re_search (<[working_test := f]> fs)) =
            Returns (usable fs test_file &&
                     forallb (fun pd => re_search (fst pd) (target_text fs))
                       patterns_to_check)).
  { intros f ref Hr Hne.
    rewrite (reads_only_outcome _ _ _ _ (validate_test_structure_reads _)).
    unfold structure_ok. rewrite (usable_text _ _ _ _ Hr Hne), andb_true_r.
    unfold usable, target_text, text_of.
    now rewrite (lookup_insert_ne _ _ _ _ test_file_is_not_working_test). }
  split; [|now apply (Hres f1 ref1)].
  now rewrite (Hres f1 ref1), (Hres f2 ref2).
Qed.
End WithRegexEngine.

(** ** The auditor on concrete file systems *)

(** Every pattern of the auditor lies in the fragment [AsciiRe] implements. *)
Lemma every_pattern_parses :
  forallb (fun p => bool_decide (is_Some (AsciiRe.parse p)))
    (map fst patterns_to_check ++ map fst image_patterns ++ auth_patterns) = true.
Proof. vm_compute. reflexivity. Qed.

(** IGNORECASE and DOTALL at work: letter case is ignored and [.*] runs
    across line ends; [\s*] takes any run of white space. *)
Example search_ignores_case_and_line_ends :
  AsciiRe.search "TEST_USERNAME.*TEST_PASSWORD"
    ("test_username = a" ++ nl ++ "Test_Password = b") = true /\
  AsciiRe.search "Username = username,\s*Password = password"
    ("Username = username," ++ nl ++ "    Password = password") = true /\
  AsciiRe.search "\.Should\(\)" "x.Should ()" = false.
Proof. vm_compute. repeat split. Qed.

(** C1 witness: on a file system where everything is in place the
    auditor exits with code 0. *)
Lemma C1_exit_code_zero_on_complete_file_system :
  exit_code AsciiRe.search fs_complete = 0.
Proof.
  apply (proj1 (C1_exit_code_zero_iff_all_sections_pass AsciiRe.search fs_complete)).
  repeat split; try (vm_compute; reflexivity).
  vm_compute. eauto.
Defined.

(** C1 as stated fails: with .env missing, every listed regex still matches
    in the target test file, and yet the auditor exits with code 1. *)
Lemma C1_all_regexes_match_yet_exit_code_1 :
  ~ (exit_code AsciiRe.search fs_without_env = 0 <->
     every_listed_regex_matches AsciiRe.search fs_without_env = true).
Proof.
  intros [_ H].
  assert (Hmatch : every_listed_regex_matches AsciiRe.search fs_without_env = true)
    by (vm_compute; reflexivity).
  apply H in Hmatch. vm_compute in Hmatch. discriminate Hmatch.
Qed.

(** C3 witness: each of the three files missing on its own. *)
Lemma C3_each_missing_file_on_its_own :
  (outcome_of (validate_env_file fs_without_env) = Returns false /\
   exit_code AsciiRe.search fs_without_env = 1) /\
  (outcome_of (validate_test_image_exists fs_without_image) = Returns false /\
   exit_code AsciiRe.search fs_without_image = 1) /\
  (outcome_of (validate_project_dependencies fs_without_csproj) = Returns false /\
   exit_code AsciiRe.search fs_without_csproj = 1) /\
  exit_code AsciiRe.search ∅ = 1.
Proof.
  split; [|split; [|split]].
  - apply (C3_missing_file_fails_its_section_and_exit_code_1 AsciiRe.search fs_without_env).
    vm_compute. reflexivity.
  - apply (C3_missing_file_fails_its_section_and_exit_code_1 AsciiRe.search fs_without_image).
    vm_compute. reflexivity.
  - apply (C3_missing_file_fails_its_section_and_exit_code_1 AsciiRe.search fs_without_csproj).
    vm_compute. reflexivity.
  - apply (C3_missing_file_fails_its_section_and_exit_code_1 AsciiRe.search ∅).
    left. vm_compute. reflexivity.
Defined.

(** C5 as stated fails: on a file system where both files are readable,
    no pattern is ever searched in the reference file. *)
Lemma C5_reference_file_is_never_searched :
  ~ applies_patterns_to AsciiRe.search fs_complete working_test.
Proof.
  intros H.
  destruct (H plain_reference) as [Hs _]; [vm_compute; reflexivity|].
  specialize (Hs "LoginRequest").
  assert (Hin : In "LoginRequest" (map fst patterns_to_check)) by (simpl; tauto).
  apply Hs in Hin.
  assert (Htext : text_of fs_complete test_file = Some plain_reference).
  { eapply (benign_searches AsciiRe.search); [|exact Hin].
    eapply reads_only_trace, validate_test_structure_reads. }
  vm_compute in Htext. discriminate Htext.
Qed.

(** C5 witness: the searches on the complete file system. *)
Lemma C5_searches_on_complete_file_system :
  searches (trace_of (validate_test_structure AsciiRe.search fs_complete)) =
    map (fun pd => (fst pd, target_text fs_complete)) patterns_to_check /\
  opened_paths (trace_of (validate_test_structure AsciiRe.search fs_complete)) =
    [test_file; working_test].
Proof.
  destruct (proj2 (C5_patterns_are_searched_in_the_target_only AsciiRe.search fs_complete))
    as (Hs & _ & Ho & _); [vm_compute; reflexivity | vm_compute; reflexivity |].
  split; assumption.
Defined.

(** C8 witness: two different reference files, same result. *)
Lemma C8_same_result_for_two_references :
  outcome_of (validate_test_structure AsciiRe.search
                (<[working_test := text_file "// reference A"]> fs_complete)) =
  outcome_of (validate_test_structure AsciiRe.search
                (<[working_test := text_file complete_test_source]> fs_complete)).
Proof.
  apply (C8_reference_contents_do_not_influence_the_result AsciiRe.search fs_complete
           (text_file "// reference A") (text_file complete_test_source)
           "// reference A" complete_test_source);
    [reflexivity | reflexivity | discriminate | discriminate].
Defined.
End AuditorFacts.

(* ================================================================== *)
(** * The image script: properties *)
(* ================================================================== *)

Module ImageFacts.
Import Py PyFacts ImageScript ImageSpec.

Ltac plain_print := apply ends_print; reflexivity.

Ltac estep :=
  eapply ends_bind;
  [ first [ plain_print | apply ends_get | apply ends_call; exact I ] | cbv beta ].

Lemma os_path_exists_ends P fs path :
  ends P (os_path_exists path) fs (Returns (bool_decide (is_Some (fs !! path)))) [].
Proof. exists []. repeat split. constructor. Qed.

Lemma os_path_getsize_ends P (fs : filesystem) path f :
  fs !! path = Some f -> ends P (os_path_getsize path) fs (Returns (getsize f)) [].
Proof.
  intros Hf. exists []. repeat split; [|constructor].
  unfold os_path_getsize, bind, get. now rewrite Hf.
Qed.

Lemma Image_open_ends (fs : filesystem) path f :
  fs !! path = Some f ->
  ends no_creation (Image_open path) fs
    (match pil f with
     | Opens o => Returns o
     | CannotOpen msg => Raises (OSError msg)
     end)
    [ImageOpen path].
Proof.
  intros Hf. exists [Call (ImageOpen path)]. repeat split; [|now repeat constructor].
  unfold Image_open, bind, call, emit, get. rewrite Hf.
  now destruct (pil f).
Qed.

(** The analysis returns its verdict, never raises, changes nothing, and
    opens the file it was given if the file exists. *)
Lemma analyze_test_image_ends fs path :
  ends no_creation (analyze_test_image path) fs
    (Returns (analysis_passes fs path))
    (match fs !! path with Some _ => [ImageOpen path] | None => [] end).
Proof.
  unfold analyze_test_image, analysis_passes.
  eapply ends_bind with (cs := []) (a := tt); [plain_print|].
  eapply ends_bind with (cs := []); [apply os_path_exists_ends|].
  destruct (fs !! path) as [f|] eqn:Ef; cbn [bool_decide negb decide_rel is_Some_dec].
  2:{ eapply ends_eq; [estep; now apply ends_ret | reflexivity | reflexivity]. }
  pose proof (Image_open_ends fs path f Ef) as Hopen.
  destruct (pil f) as [msg|o].
  { eapply ends_eq; [|reflexivity|].
    - eapply ends_try_caught;
        [ apply ends_bind_raises; exact Hopen | reflexivity | ].
      estep. now apply ends_ret.
    - reflexivity. }
  destruct (o_getcolors o) as [msg|cs] eqn:Ecs.
  { eapply ends_eq; [|reflexivity|].
    - eapply ends_try_caught;
        [ eapply ends_bind; [exact Hopen|]; do 4 estep;
          apply ends_bind_raises; unfold getcolors; rewrite Ecs; apply ends_raise
        | reflexivity | ].
      estep. now apply ends_ret.
    - reflexivity. }
  replace (100 <=? getsize f) with (negb (getsize f <? 100)) by lia.
  assert (Htail : forall b (k : opened -> Z -> M bool),
             ends no_creation (k o (getsize f)) fs (Returns b) [] ->
             ends no_creation
               (try_except
                  (do img <- Image_open path;
                   print "✅ Image loaded successfully";;
                   print ("   Size: " ++ str_pair (o_size img));;
                   print ("   Mode: " ++ o_mode img);;
                   print ("   Format: " ++ str_option (o_format img));;
                   do colors <- getcolors img;
                   let num_colors :=
                     match colors with
                     | Some (c :: cs) => str_int (Z.of_nat (length (c :: cs)))
                     | _ => "many"
                     end in
                   print ("   Unique colors: " ++ num_colors);;
                   do file_size <- os_path_getsize path;
                   print ("   File size: " ++ str_int file_size ++ " bytes");;
                   k img file_size)
                  is_Exception
                  (fun e => print ("❌ Error analyzing image: " ++ str_exn e);; ret false))
               fs (Returns b) [ImageOpen path]).
  { intros b k Hk. apply ends_try_returns.
    eapply ends_eq; [|reflexivity|].
    - eapply ends_bind; [exact Hopen|].
      do 4 estep.
      eapply ends_bind; [unfold getcolors; rewrite Ecs; now apply ends_ret|].
      estep.
      eapply ends_bind; [apply os_path_getsize_ends; exact Ef|].
      estep. exact Hk.
    - reflexivity. }
  apply Htail.
  destruct (getsize f <? 100); cbn [negb andb].
  { eapply ends_eq; [estep; now apply ends_ret | reflexivity | reflexivity]. }
  destruct (pair_eqb (o_size o) (400, 300)); cbn [negb];
    (eapply ends_eq; [estep; now apply ends_ret | reflexivity | reflexivity]).
Qed.

(** C2 (as amended): [analyze_test_image] returns True if and only if the
    file exists, the image opens and its pixel data decodes without raising,
    the file size is at least 100 bytes, and the pixel dimensions are exactly
    (400, 300); in every other case it returns False.  It never raises and
    leaves the file system as it was. *)
Theorem C2_analysis_returns_true_iff_checks_pass fs path :
  (outcome_of (analyze_test_image path fs) = Returns true <->
     exists f o cs,
       fs !! path = Some f /\ pil f = Opens o /\ o_getcolors o = Colors cs /\
       100 <= getsize f /\ o_size o = (400, 300)) /\
  (outcome_of (analyze_test_image path fs) <> Returns true ->
     outcome_of (analyze_test_image path fs) = Returns false) /\
  state_of (analyze_test_image path fs) = fs.
Proof.
  destruct (ends_run _ _ _ _ _ (analyze_test_image_ends fs path)) as (Hs & Ho & _).
  rewrite Ho. split; [|split; [|exact Hs]].
  - unfold analysis_passes, pair_eqb. split.
    + intros [= H].
      destruct (fs !! path) as [f|]; [|discriminate].
      destruct (pil f) as [|o] eqn:Ep; [discriminate|].
      destruct (o_getcolors o) as [|cs] eqn:Ec; [discriminate|].
      apply andb_true_iff in H as [Hsize Hdims].
      apply andb_true_iff in Hdims as [Hw Hh].
      exists f, o, cs. repeat split; try assumption; [lia|].
      destruct (o_size o) as [w h]. simpl in *. f_equal; lia.
    + intros (f & o & cs & -> & -> & -> & Hsize & ->).
      f_equal. simpl. apply andb_true_iff. split; [lia|reflexivity].
  - destruct (analysis_passes fs path); [intros H; now elim H|reflexivity].
Qed.

(** ** The generated picture *)

(** A run of [create_test_image].  With the default font loaded: five
    progress lines, then the save of the finished picture, whose result
    decides how the run ends.  Without it: the shapes are drawn, and the
    first [draw.text] raises. *)
Lemma create_test_image_run env path fs :
  let r := create_test_image env path fs in
  match load_default env with
  | FontLoaded fnt =>
      let img := finished_picture (Some fnt) in
      trace_of r =
        [ Print ("Creating test image at: " ++ path);
          Print "✅ Added blue rectangle"; Print "✅ Added red circle";
          Print "✅ Added green triangle"; Print "✅ Added text labels";
          Call (ImageSave path img) ] /\
      match save_as env path img with
      | Saved f => outcome_of r = Returns img /\ state_of r = <[path := f]> fs
      | SaveOSError msg => outcome_of r = Raises (OSError msg) /\ state_of r = fs
      | SaveValueError msg => outcome_of r = Raises (ValueError msg) /\ state_of r = fs
      end
  | FontFails msg =>
      trace_of r =
        [ Print ("Creating test image at: " ++ path);
          Print "✅ Added blue rectangle"; Print "✅ Added red circle";
          Print "✅ Added green triangle" ] /\
      outcome_of r = Raises (OSError msg) /\ state_of r = fs
  end.
Proof.
  cbv zeta.
  unfold create_test_image, ImageDraw_text, Image_save, ImageFont_load_default,
    finished_picture, try_except, bind, print, call, emit, get, put, ret, raise.
  cbv beta iota delta [draw Image_new mode size background drawn app].
  destruct (load_default env) as [fnt|msg]; cbv beta iota.
  - match goal with
    | |- context [save_as env path ?i] => destruct (save_as env path i)
    end; simpl; repeat split; reflexivity.
  - simpl. repeat split; reflexivity.
Qed.


Lemma finished_picture_structure fnt :
  structure_of (finished_picture fnt) = structure_of (finished_picture None).
Proof. reflexivity. Qed.

(** The image handed to [img.save]: the finished picture, once the default
    font is loaded; without the font the run does not get that far. *)
Lemma saved_image_of_run env path fs :
  saved_image (trace_of (create_test_image env path fs)) =
  match load_default env with
  | FontLoaded fnt => Some (path, finished_picture (Some fnt))
  | FontFails _ => None
  end.
Proof.
  pose proof (create_test_image_run env path fs) as H. cbv zeta in H.
  destruct (load_default env); destruct H as [Ht _]; now rewrite Ht.
Qed.

(** Whatever [create_test_image] returns is the finished picture. *)
Lemma returned_picture env path fs img :
  outcome_of (create_test_image env path fs) = Returns img ->
  exists fnt, img = finished_picture (Some fnt).
Proof.
  intros Himg.
  pose proof (create_test_image_run env path fs) as Hrun. cbv zeta in Hrun.
  destruct (load_default env) as [fnt|msg].
  - destruct Hrun as [_ Hsave].
    destruct (save_as env path (finished_picture (Some fnt)));
      destruct Hsave as [Ho _]; rewrite Ho in Himg; try discriminate Himg.
    injection Himg as <-. now exists fnt.
  - destruct Hrun as (_ & Ho & _). rewrite Ho in Himg. discriminate Himg.
Qed.


(** C7: any two invocations of [create_test_image], whatever the Pillow
    installation, the file system and the output path, produce images with
    the same dimensions (400, 300) and the same shapes, colours, positions
    and texts: this holds of the images the two runs hand to [img.save],
    which every run does whose default font loads, and of the images they
    return.  The files they write can differ. *)
Theorem C7_regeneration_keeps_dimensions_and_structure
    env1 env2 path1 path2 fs1 fs2 :
  (forall p1 img1 p2 img2,
     saved_image (trace_of (create_test_image env1 path1 fs1)) = Some (p1, img1) ->
     saved_image (trace_of (create_test_image env2 path2 fs2)) = Some (p2, img2) ->
     size img1 = (400, 300) /\ size img2 = (400, 300) /\
     structure_of img1 = structure_of img2) /\
  (forall img1 img2,
     outcome_of (create_test_image env1 path1 fs1) = Returns img1 ->
     outcome_of (create_test_image env2 path2 fs2) = Returns img2 ->
     size img1 = (400, 300) /\ size img2 = (400, 300) /\
     structure_of img1 = structure_of img2) /\
  (forall fnt, load_default env1 = FontLoaded fnt ->
     exists img,
       saved_image (trace_of (create_test_image env1 path1 fs1)) = Some (path1, img)) /\
  (exists enva envb path,
     state_of (create_test_image enva path ∅) !! path <>
     state_of (create_test_image envb path ∅) !! path).
Proof.
  pose proof (saved_image_of_run env1 path1 fs1) as Hs1.
  pose proof (saved_image_of_run env2 path2 fs2) as Hs2.
  split; [|split; [|split]].
  - intros p1 img1 p2 img2 H1 H2. rewrite H1 in Hs1. rewrite H2 in Hs2.
    destruct (load_default env1); [|discriminate Hs1].
    destruct (load_default env2); [|discriminate Hs2].
    injection Hs1 as -> ->. injection Hs2 as -> ->. now repeat split.
  - intros img1 img2 H1 H2.
    destruct (returned_picture env1 path1 fs1 img1 H1) as (fnt1 & ->).
    destruct (returned_picture env2 path2 fs2 img2 H2) as (fnt2 & ->).
    now repeat split.
  - intros fnt Hfont. rewrite Hfont in Hs1. eauto.
  - exists (pillow_writing 1500), (pillow_writing 1501), "out.png".
    vm_compute. discriminate.
Qed.

(** ** [main] when the image is already there *)

Lemma simulate_claude_analysis_ends fs :
  exists keywords,
    ends no_creation simulate_claude_analysis fs (Returns keywords) [].
Proof.
  eexists. unfold simulate_claude_analysis.
  eapply ends_eq; [repeat estep; now apply ends_ret | reflexivity | reflexivity].
Qed.

Lemma create_test_summary_ends fs :
  ends no_creation create_test_summary fs (Returns tt) [].
Proof.
  unfold create_test_summary.
  eapply ends_eq; [repeat estep; plain_print | reflexivity | reflexivity].
Qed.

Lemma validate_test_setup_ends fs :
  ends no_creation validate_test_setup fs
    (Returns (bool_decide (is_Some (fs !! tests_dir)))) [].
Proof.
  unfold validate_test_setup.
  eapply ends_eq; [|reflexivity|].
  - estep. estep.
    eapply ends_bind; [apply os_path_exists_ends|].
    destruct (bool_decide (is_Some (fs !! tests_dir))); estep; now apply ends_ret.
  - reflexivity.
Qed.

(** With the image in place [main] only reads: it opens the image for the
    analysis and ends as the analysis decides. *)
Lemma main_with_existing_image env (fs : filesystem) f :
  fs !! test_image_path = Some f ->
  ends no_creation (main env) fs
    (if bool_decide (is_Some (fs !! tests_dir)) then
       if analysis_passes fs test_image_path then Returns tt
       else Raises (SystemExit 1)
     else Raises (SystemExit 1))
    (if bool_decide (is_Some (fs !! tests_dir)) then [ImageOpen test_image_path]
     else []).
Proof.
  intros Hf. unfold main.
  eapply ends_bind with (cs := []) (a := tt); [plain_print|].
  eapply ends_bind with (cs := []) (a := tt); [plain_print|].
  eapply ends_bind with (cs := []); [apply validate_test_setup_ends|].
  destruct (bool_decide (is_Some (fs !! tests_dir))); cbn [negb].
  2:{ apply ends_bind_raises.
      eapply ends_eq; [estep; apply ends_raise | reflexivity | reflexivity]. }
  eapply ends_bind with (cs := []) (a := tt); [now apply ends_ret|].
  cbv zeta.
  eapply ends_bind with (cs := []); [apply os_path_exists_ends|].
  rewrite Hf. cbn [bool_decide decide_rel is_Some_dec].
  eapply ends_bind with (cs := []) (a := tt); [plain_print|].
  pose proof (analyze_test_image_ends fs test_image_path) as Ha.
  rewrite Hf in Ha.
  eapply ends_eq; [eapply ends_bind; [exact Ha|] | reflexivity | ].
  - destruct (analysis_passes fs test_image_path); cbn [negb].
    + eapply ends_bind with (cs := []) (a := tt); [now apply ends_ret|].
      destruct (simulate_claude_analysis_ends fs) as [keywords Hk].
      eapply ends_bind with (cs := []); [exact Hk|].
      eapply ends_bind with (cs := []); [apply create_test_summary_ends|].
      eapply ends_eq; [repeat estep; plain_print | reflexivity | reflexivity].
    + apply ends_bind_raises.
      eapply ends_eq; [estep; apply ends_raise | reflexivity | reflexivity].
  - destruct (analysis_passes fs test_image_path); reflexivity.
Qed.

Lemma no_creation_no_save t :
  Forall no_creation t -> forall p img, ~ In (ImageSave p img) (calls t).
Proof.
  induction 1 as [|e t He _ IH]; intros p img; simpl; [tauto|].
  rewrite in_app_iff. intros [Hin|Hin]; [|now apply (IH p img)].
  destruct e as [line|[q|q i]]; simpl in *; try tauto.
  destruct Hin as [Heq|[]]. discriminate Heq.
Qed.

(** C10: if a file already exists at the hard-coded test-image path, [main]
    does not call [create_test_image] (nothing is saved, and the line that
    opens [create_test_image] is not printed) and leaves the file system,
    that file included, as it was; the analysis that follows opens that
    file, and its verdict on the file as found decides how [main] ends. *)
Theorem C10_existing_image_is_left_alone_and_analysed env (fs : filesystem) f :
  fs !! test_image_path = Some f ->
  state_of (main env fs) = fs /\
  state_of (main env fs) !! test_image_path = Some f /\
  (forall p img, ~ In (ImageSave p img) (calls (trace_of (main env fs)))) /\
  (forall line, In line (printed (trace_of (main env fs))) ->
     String.prefix "Creating test image at: " line = false) /\
  (is_Some (fs !! tests_dir) ->
     calls (trace_of (main env fs)) = [ImageOpen test_image_path] /\
     outcome_of (main env fs) =
       if analysis_passes fs test_image_path then Returns tt
       else Raises (SystemExit 1)).
Proof.
  intros Hf.
  destruct (ends_run _ _ _ _ _ (main_with_existing_image env fs f Hf))
    as (Hs & Ho & Ht & Hc).
  split; [exact Hs|]. split; [now rewrite Hs|].
  split; [now apply no_creation_no_save|].
  split.
  - intros line Hin. unfold printed in Hin. apply in_flat_map in Hin as (e & He & Hl).
    rewrite Forall_forall in Ht. specialize (Ht e (proj2 (list_elem_of_In _ _) He)).
    destruct e as [l|c]; simpl in Hl; [|tauto].
    destruct Hl as [<-|[]]. exact Ht.
  - intros Hdir. rewrite Hc, Ho.
    rewrite (bool_decide_eq_true_2 _ Hdir). now split.
Qed.

(** ** The image script on concrete worlds *)

(** C2 as stated fails: a file of exactly 100 bytes that opens as a 400 by
    300 image passes the analysis, although it is not larger than 100 bytes. *)
Lemma C2_hundred_byte_image_passes :
  ~ (outcome_of (analyze_test_image test_image_path fs_hundred_bytes) = Returns true <->
     analysis_as_specified fs_hundred_bytes test_image_path = true).
Proof.
  intros [H _].
  assert (Hrun : outcome_of (analyze_test_image test_image_path fs_hundred_bytes)
                 = Returns true) by (vm_compute; reflexivity).
  apply H in Hrun. vm_compute in Hrun. discriminate Hrun.
Qed.

(** C2 witness: an image written by a working encoder passes. *)
Lemma C2_stored_picture_passes :
  outcome_of (analyze_test_image "out.png"
                (<["out.png" := stored 1500 (finished_picture None)]> ∅)) = Returns true.
Proof.
  apply (proj1 (C2_analysis_returns_true_iff_checks_pass _ "out.png")).
  eexists _, _, _.
  split; [apply lookup_insert_eq|].
  split; [reflexivity|]. split; [reflexivity|].
  split; [vm_compute; discriminate | reflexivity].
Defined.



(** C7 witness: a run on a read-only disk and a run with a working encoder
    hand pictures of the same dimensions and structure to [img.save]. *)
Lemma C7_same_structure_in_two_worlds :
  exists img1 img2,
    saved_image (trace_of (create_test_image pillow_read_only "a.png" ∅))
      = Some ("a.png", img1) /\
    saved_image (trace_of (create_test_image (pillow_writing 1500) "b.png" fs_foreign_image))
      = Some ("b.png", img2) /\
    size img1 = (400, 300) /\ size img2 = (400, 300) /\
    structure_of img1 = structure_of img2.
Proof.
  exists (finished_picture (Some DefaultFont)), (finished_picture (Some DefaultFont)).
  split; [reflexivity|]. split; [reflexivity|].
  apply (proj1 (C7_regeneration_keeps_dimensions_and_structure
                  pillow_read_only (pillow_writing 1500) "a.png" "b.png"
                  ∅ fs_foreign_image)
           "a.png" (finished_picture (Some DefaultFont))
           "b.png" (finished_picture (Some DefaultFont)));
    reflexivity.
Defined.

(** C10 witness: an image of another size at the path is kept, analysed as
    it is and rejected. *)
Lemma C10_foreign_image_is_kept_and_rejected :
  state_of (main (pillow_writing 1500) fs_foreign_image) = fs_foreign_image /\
  outcome_of (main (pillow_writing 1500) fs_foreign_image) = Raises (SystemExit 1).
Proof.
  destruct (C10_existing_image_is_left_alone_and_analysed
              (pillow_writing 1500) fs_foreign_image
              (stored 2048 (Image_new "RGB" (640, 480) "black")))
    as (Hs & _ & _ & _ & Hrun); [vm_compute; reflexivity|].
  split; [exact Hs|].
  destruct Hrun as [_ Ho]; [vm_compute; eauto|].
  rewrite Ho. vm_compute. reflexivity.
Defined.

End ImageFacts.

(* ================================================================== *)
(** * The authentication probe: properties *)
(* ================================================================== *)

Module AuthFacts.
Import Py PyFacts AuthProbe AuthSpec.

Section WithServer.
Variable server : Type.
Variable handle : server -> request -> server * reply.
Variable repr : pyval -> string.

Local Abbreviation login_request :=
  (POST (api_base ++ "/auth/login") [ ("username", "jsbattig"); ("password", "test123") ]).

Lemma send_run (r : request) (srv : server) :
  send server handle r srv =
    ([Call (Http r)], fst (handle srv r),
     match snd (handle srv r) with
     | Responds resp => Returns resp
     | NoResponse msg => Raises (RequestException msg)
     end).
Proof.
  unfold send, exchange, bind, call, emit, get, put, ret, raise. simpl.
  destruct (handle srv r) as [srv' [resp|msg]]; reflexivity.
Qed.

Ltac unfold_probe :=
  unfold script, test_auth, requests_post, requests_get, send, exchange,
    first_line_break, first_latin1_error, response_json,
    py_get, py_slice_to, login_reply, try_except, bind, print, call, emit,
    get, put, ret, raise in *;
  cbv beta iota in *.



(** Case analysis on whatever the probe still branches on. *)
Ltac split_cases :=
  repeat (cbv beta iota;
          match goal with
          | |- context [match ?x with _ => _ end] =>
              lazymatch x with
              | context [match _ with _ => _ end] => fail
              | _ => destruct x
              end
          end).



(** Whatever [test_auth] raises is an [Exception]. *)
Lemma test_auth_raises_only_Exception srv e :
  outcome_of (test_auth server handle repr srv) = Raises e -> is_Exception e = true.
Proof.
  unfold_probe. unfold outcome_of.
  split_cases; cbn [snd]; intros H; inversion H; subst; reflexivity.
Qed.



(** C9: the probe script never lets an exception escape and always ends
    with exit code 0, whether the login fails, the token is missing, the
    authenticated request fails, or a call raises: everything [test_auth]
    can raise is an [Exception], which the top-level handler catches and
    prints. *)
Theorem C9_script_always_exits_with_code_0 srv :
  outcome_of (script server handle repr srv) = Returns tt /\
  exit_status (outcome_of (script server handle repr srv)) = 0 /\
  (forall e, outcome_of (test_auth server handle repr srv) = Raises e ->
     is_Exception e = true /\
     last_line (trace_of (script server handle repr srv)) = Some ("Error: " ++ str_exn e)).
Proof.
  assert (Hcatch : forall e, outcome_of (test_auth server handle repr srv) = Raises e ->
            is_Exception e = true) by apply test_auth_raises_only_Exception.
  unfold script, try_except.
  rewrite (bind_returns _ _ _ _ _ _ (eq_refl : call _ srv = (_, srv, Returns tt))).
  rewrite (bind_returns _ _ _ _ _ _ (eq_refl : call _ srv = (_, srv, Returns tt))).
  destruct (test_auth server handle repr srv) as [[t srv'] [[]|e]] eqn:Hrun;
    cbn [outcome_of trace_of state_of fst snd] in *.
  - split; [reflexivity|]. split; [reflexivity|]. intros e H. discriminate H.
  - rewrite (Hcatch e eq_refl). cbn [outcome_of trace_of state_of fst snd print emit].
    split; [reflexivity|]. split; [reflexivity|].
    intros e' [= <-]. split; [now apply Hcatch|].
    unfold last_line, printed.
    rewrite !flat_map_app. simpl.
    apply last_snoc.
Qed.
End WithServer.

(** ** The probe against concrete servers *)



(** C9 witness: a numeric token makes [token[:50]] raise a TypeError, which
    the script prints before ending normally. *)
Lemma C9_type_error_is_caught_and_printed :
  outcome_of (script unit (always numeric_token) simple_repr tt) = Returns tt /\
  last_line (trace_of (script unit (always numeric_token) simple_repr tt))
    = Some "Error: 'int' object is not subscriptable".
Proof.
  destruct (C9_script_always_exits_with_code_0 unit (always numeric_token) simple_repr tt)
    as (Ho & _ & Hraise).
  split; [exact Ho|].
  apply (Hraise (TypeError "'int' object is not subscriptable")). reflexivity.
Defined.

End AuthFacts.

(* ================================================================== *)
(** * Strings: concatenation, prefixes and substrings *)
(* ================================================================== *)

Module StringFacts.
Import Py.

Lemma append_cons c (s t : string) : String c s ++ t = String c (s ++ t).
Proof. reflexivity. Qed.

Lemma append_empty (t : string) : EmptyString ++ t = t.
Proof. reflexivity. Qed.


Lemma prefix_empty (s : string) : String.prefix EmptyString s = true.
Proof. now destruct s. Qed.

Lemma prefix_cons a b (s t : string) :
  String.prefix (String a s) (String b t) =
  if ascii_dec a b then String.prefix s t else false.
Proof. reflexivity. Qed.

(** A prefix stays one when text is added at the end. *)
Lemma prefix_app_r (needle haystack post : string) :
  String.prefix needle haystack = true ->
  String.prefix needle (haystack ++ post) = true.
Proof.
  revert haystack. induction needle as [|a needle IH]; intros haystack H.
  - apply prefix_empty.
  - destruct haystack as [|b haystack]; [discriminate|].
    rewrite append_cons, prefix_cons in *.
    destruct (ascii_dec a b); [now apply IH | discriminate].
Qed.

Lemma str_contains_cons needle c haystack :
  str_contains needle (String c haystack) =
  if String.prefix needle (String c haystack) then true
  else str_contains needle haystack.
Proof. reflexivity. Qed.

(** [needle in haystack] survives text added at the end... *)
Lemma str_contains_app_r needle haystack post :
  str_contains needle haystack = true -> str_contains needle (haystack ++ post) = true.
Proof.
  induction haystack as [|c haystack IH]; intros H.
  - destruct needle; [|discriminate]. now destruct post.
  - rewrite append_cons, str_contains_cons. rewrite str_contains_cons in H.
    destruct (String.prefix needle (String c haystack)) eqn:Hp.
    + rewrite <- append_cons, (prefix_app_r _ _ post Hp). reflexivity.
    + destruct (String.prefix needle (String c (haystack ++ post))); [reflexivity|].
      now apply IH.
Qed.

(** ... and text added in front. *)
Lemma str_contains_app_l needle pre haystack :
  str_contains needle haystack = true -> str_contains needle (pre ++ haystack) = true.
Proof.
  intros H. induction pre as [|c pre IH]; [exact H|].
  rewrite append_cons, str_contains_cons.
  destruct (String.prefix needle (String c (pre ++ haystack))); [reflexivity | exact IH].
Qed.

Lemma str_contains_between needle pre haystack post :
  str_contains needle haystack = true ->
  str_contains needle (pre ++ haystack ++ post) = true.
Proof. intros H. now apply str_contains_app_l, str_contains_app_r. Qed.

End StringFacts.

(* ================================================================== *)
(** * The pattern auditor: further properties *)
(* ================================================================== *)

Module AuditorExtra.
Import Py PyFacts StringFacts Auditor AuditorSpec AuditorFacts AuditorMore.

(** ** [read_file] *)

(** X1: [read_file] never raises and changes nothing.  It opens the path it
    is given; when the text can be read it returns it and prints nothing,
    and in every other case (no such file, a directory, no permission, bytes
    that are not UTF-8) it returns None after one line that names the path
    and the reason. *)
Theorem read_file_returns_the_text_or_reports (fs : filesystem) path :
  state_of (read_file path fs) = fs /\
  calls (trace_of (read_file path fs)) = [Open path] /\
  match text_of fs path with
  | Some content =>
      outcome_of (read_file path fs) = Returns (Some content) /\
      printed (trace_of (read_file path fs)) = []
  | None =>
      outcome_of (read_file path fs) = Returns None /\
      exists reason,
        printed (trace_of (read_file path fs)) =
          ["❌ Error reading " ++ path ++ ": " ++ reason]
  end.
Proof.
  unfold read_file, open_and_read, text_of, try_except, bind, call, emit, get, ret,
    raise, print.
  cbv beta iota.
  destruct (fs !! path) as [f|]; [destruct (read f)|]; cbn;
    repeat split; eexists; reflexivity.
Qed.

(** ** The sections one by one *)

Section WithRegexEngine.
Variable re_search : string -> string -> bool.

(** X2: [validate_image_specific_logic] never raises; it returns True
    exactly when the target test file can be read, is not empty, and every
    image pattern matches in it.  Nothing else in the file system matters:
    the reference test file is not looked at. *)
Theorem image_logic_is_decided_by_the_target_alone (fs : filesystem) :
  (outcome_of (validate_image_specific_logic re_search fs) = Returns true <->
     exists content,
       text_of fs test_file = Some content /\ content <> EmptyString /\
       forall pattern, In pattern (map fst image_patterns) ->
                       re_search pattern content = true) /\
  (outcome_of (validate_image_specific_logic re_search fs) <> Returns true ->
     outcome_of (validate_image_specific_logic re_search fs) = Returns false) /\
  (forall fs' : filesystem,
     fs' !! test_file = fs !! test_file ->
     outcome_of (validate_image_specific_logic re_search fs') =
     outcome_of (validate_image_specific_logic re_search fs)).
Proof.
  assert (Hrun : forall fs0, outcome_of (validate_image_specific_logic re_search fs0)
                             = Returns (image_logic_ok re_search fs0)).
  { intros fs0. apply (reads_only_outcome (benign fs0)).
    apply validate_image_specific_logic_reads. }
  split; [|split].
  - rewrite Hrun. unfold image_logic_ok, usable, target_text.
    rewrite <- (forallb_map_fst (fun p => re_search p (default EmptyString (text_of fs test_file)))).
    generalize (map fst image_patterns). intros patterns.
    split.
    + intros [= H]. apply andb_true_iff in H as [Hne Hall].
      destruct (text_of fs test_file) as [content|]; [|discriminate].
      exists content. split; [reflexivity|]. split.
      * intros ->. discriminate.
      * rewrite forallb_forall in Hall. intros pattern Hin. now apply Hall.
    + intros (content & -> & Hne & Hall). f_equal. apply andb_true_iff. split.
      * destruct content; [contradiction|reflexivity].
      * apply forallb_forall. intros pattern Hin. now apply Hall.
  - rewrite Hrun. destruct (image_logic_ok re_search fs); [intros H; now elim H|reflexivity].
  - intros fs' Hsame. rewrite !Hrun.
    unfold image_logic_ok, usable, target_text, text_of. now rewrite Hsame.
Qed.

(** X3: [validate_test_image_exists] returns True for any file that exists,
    whatever its size: a size under 1000 bytes or over 50000 bytes only adds
    a warning line, and never both. *)
Theorem test_image_check_warns_but_never_fails_on_size (fs : filesystem) f :
  fs !! image_path = Some f ->
  outcome_of (validate_test_image_exists fs) = Returns true /\
  warnings (trace_of (validate_test_image_exists fs)) =
    (if getsize f <? 1000 then [small_warning (getsize f)]
     else if getsize f >? 50000 then [large_warning (getsize f)]
     else []).
Proof.
  intros Hf.
  unfold validate_test_image_exists, os_path_exists, os_path_getsize, bind, print, emit,
    get, ret, raise.
  repeat (progress (cbv beta iota; rewrite ?Hf;
                    cbn [bool_decide decide_rel is_Some_dec negb])).
  unfold small_warning, large_warning.
  generalize (str_int (getsize f)). intros shown.
  destruct (getsize f <? 1000) eqn:Esmall; destruct (getsize f >? 50000) eqn:Elarge;
    try lia; cbv beta iota; split; reflexivity.
Qed.

Lemma nonempty_between (pre content post : string) :
  nonempty content = true -> nonempty (pre ++ content ++ post) = true.
Proof.
  intros H. destruct pre as [|c pre]; [|reflexivity].
  rewrite append_empty. destruct content; [discriminate|reflexivity].
Qed.

Lemma contains_all_between (needles : list string) pre content post :
  nonempty content && forallb (fun n => str_contains n content) needles = true ->
  nonempty (pre ++ content ++ post) &&
  forallb (fun n => str_contains n (pre ++ content ++ post)) needles = true.
Proof.
  intros H. apply andb_true_iff in H as [Hne Hall].
  apply andb_true_iff. split; [now apply nonempty_between|].
  rewrite forallb_forall in *. intros n Hin. apply str_contains_between. now apply Hall.
Qed.

(** X4: the dependency check and the environment check look for their
    names anywhere in the text, so text added before or after what a passing
    file holds never makes the check fail. *)
Theorem substring_checks_survive_added_text (fs : filesystem) f' pre content post :
  read f' = Text (pre ++ content ++ post) ->
  (text_of fs csproj_path = Some content ->
   outcome_of (validate_project_dependencies fs) = Returns true ->
   outcome_of (validate_project_dependencies (<[csproj_path := f']> fs)) = Returns true) /\
  (text_of fs env_path = Some content ->
   outcome_of (validate_env_file fs) = Returns true ->
   outcome_of (validate_env_file (<[env_path := f']> fs)) = Returns true).
Proof.
  intros Hread. split; intros Htext.
  - rewrite !(reads_only_outcome _ _ _ _ (validate_project_dependencies_reads _)).
    unfold dependencies_ok, usable, text_of in *.
    rewrite lookup_insert_eq, Hread.
    destruct (fs !! csproj_path) as [f|]; [|discriminate].
    destruct (read f); try discriminate. injection Htext as ->.
    generalize required_packages. intros needles. cbn [truthy default from_option id].
    intros [= H]. f_equal. now apply contains_all_between.
  - rewrite !(reads_only_outcome _ _ _ _ (validate_env_file_reads _)).
    unfold environment_ok, usable, text_of in *.
    rewrite lookup_insert_eq, Hread.
    destruct (fs !! env_path) as [f|]; [|discriminate].
    destruct (read f); try discriminate. injection Htext as ->.
    generalize required_vars. intros needles. cbn [truthy default from_option id].
    intros [= H]. f_equal. now apply contains_all_between.
Qed.

(** X5: the verdict of the auditor depends on the five hard-coded paths and
    on nothing else in the file system. *)
Theorem verdict_depends_on_the_watched_paths_only (fs1 fs2 : filesystem) :
  (forall path, In path watched_paths -> fs1 !! path = fs2 !! path) ->
  exit_code re_search fs1 = exit_code re_search fs2 /\
  reports_all_passed re_search fs1 = reports_all_passed re_search fs2.
Proof.
  intros Hsame.
  assert (Hok : sections_ok re_search fs1 = sections_ok re_search fs2).
  { unfold sections_ok, structure_ok, image_logic_ok, image_file_ok, authentication_ok,
      dependencies_ok, environment_ok, usable, target_text, text_of.
    rewrite !(Hsame test_file), !(Hsame working_test), !(Hsame image_path),
      !(Hsame csproj_path), !(Hsame env_path) by (simpl; tauto).
    reflexivity. }
  split.
  - now rewrite !exit_code_verdict, Hok.
  - destruct (main_verdict re_search fs1) as (_ & _ & H1).
    destruct (main_verdict re_search fs2) as (_ & _ & H2).
    unfold reports_all_passed. apply bool_decide_ext.
    rewrite H1, H2, Hok. reflexivity.
Qed.

(** ** What a run may emit *)

Section Emits.
Variable fs : filesystem.
Variable P : event libcall -> Prop.
Hypothesis Pprint : forall line, P (Print line).
Hypothesis Popen : forall path, In path read_paths -> P (Call (Open path)).
Hypothesis Psearch_target :
  forall pattern content, usable fs test_file = true -> P (Call (ReSearch pattern content)).
Hypothesis Psearch_both :
  forall pattern content,
    usable fs test_file = true -> usable fs working_test = true ->
    P (Call (ReSearch pattern content)).

Lemma read_file_emits path :
  In path read_paths -> reads_only P (read_file path) fs (text_of fs path).
Proof using Pprint Popen.
  clear Psearch_target Psearch_both.
  intros Hin.
  unfold reads_only, read_file, open_and_read, text_of, try_except, bind, call, emit, get.
  cbv beta iota.
  destruct (fs !! path) as [f|]; [destruct (read f)|]; simpl;
    eexists; (split; [reflexivity|]); repeat constructor;
    (apply Pprint || now apply Popen).
Qed.

Lemma search_round_emits pattern content (hit miss : string) acc :
  P (Call (ReSearch pattern content)) ->
  reads_only P
    (do found <- re_search_call re_search pattern content;
     if found then print hit;; ret acc else print miss;; ret false)
    fs (acc && re_search pattern content).
Proof using Pprint.
  clear Psearch_target Psearch_both.
  intros Hsearch.
  unfold reads_only, re_search_call, bind, call, print, emit, ret. simpl.
  destruct (re_search pattern content); simpl;
    eexists; (split; [now rewrite ?andb_true_r, ?andb_false_r|]);
    repeat constructor; (exact Hsearch || apply Pprint).
Qed.

Lemma contains_round_emits needle content (hit miss : string) acc :
  reads_only P
    (if str_contains needle content then print hit;; ret acc
     else print miss;; ret false)
    fs (acc && str_contains needle content).
Proof using Pprint.
  clear Psearch_target Psearch_both.
  unfold reads_only, bind, print, emit, ret.
  destruct (str_contains needle content); simpl;
    eexists; (split; [now rewrite ?andb_true_r, ?andb_false_r|]);
    repeat constructor; apply Pprint.
Qed.

Ltac known := simpl; tauto.

Ltac pstep :=
  eapply reads_only_bind;
  [ first [ apply reads_only_emit; apply Pprint
          | apply os_path_exists_reads
          | apply read_file_emits; known ] | ].

Ltac close_false := apply reads_only_ret; symmetry.

Lemma validate_test_structure_emits :
  reads_only P (validate_test_structure re_search) fs (structure_ok re_search fs).
Proof using Pprint Popen Psearch_both.
  clear Psearch_target.
  unfold validate_test_structure, structure_ok.
  generalize patterns_to_check. intros patterns.
  pstep. pstep.
  destruct (fs !! test_file) as [ft|] eqn:Et; simpl.
  2:{ pstep. close_false. now rewrite (missing_unusable _ _ Et). }
  pstep.
  destruct (fs !! working_test) as [fw|] eqn:Ew; simpl.
  2:{ pstep. close_false. now rewrite (missing_unusable _ _ Ew), andb_false_r. }
  pstep. pstep. fold (usable fs test_file) (usable fs working_test).
  destruct (usable fs test_file) eqn:Ut; simpl; [|now close_false].
  destruct (usable fs working_test) eqn:Uw; simpl; [|now close_false].
  pstep.
  eapply reads_only_bind; [|apply reads_only_ret; reflexivity].
  apply (reads_only_for_each_all _ _ _ (fun pd => re_search (fst pd) (target_text fs))).
  intros [pattern description] acc.
  apply search_round_emits. now apply Psearch_both.
Qed.

Lemma validate_authentication_pattern_emits :
  reads_only P (validate_authentication_pattern re_search) fs
    (authentication_ok re_search fs).
Proof using Pprint Popen Psearch_both.
  clear Psearch_target.
  unfold validate_authentication_pattern, authentication_ok.
  generalize auth_patterns. intros patterns.
  pstep. pstep. pstep. fold (usable fs test_file) (usable fs working_test).
  destruct (usable fs test_file) eqn:Ut; simpl; [|now close_false].
  destruct (usable fs working_test) eqn:Uw; simpl; [|now close_false].
  pstep.
  eapply reads_only_bind; [|apply reads_only_ret; reflexivity].
  apply (reads_only_for_each_all _ _ _ (fun p => re_search p (target_text fs))).
  intros pattern acc.
  apply search_round_emits. now apply Psearch_both.
Qed.

Lemma validate_image_specific_logic_emits :
  reads_only P (validate_image_specific_logic re_search) fs (image_logic_ok re_search fs).
Proof using Pprint Popen Psearch_target.
  clear Psearch_both.
  unfold validate_image_specific_logic, image_logic_ok.
  generalize image_patterns. intros patterns.
  pstep. pstep. fold (usable fs test_file).
  destruct (usable fs test_file) eqn:Ut; simpl; [|now close_false].
  pstep.
  eapply reads_only_bind; [|apply reads_only_ret; reflexivity].
  apply (reads_only_for_each_all _ _ _ (fun pd => re_search (fst pd) (target_text fs))).
  intros [pattern description] acc.
  apply search_round_emits. now apply Psearch_target.
Qed.

Lemma validate_test_image_exists_emits :
  reads_only P validate_test_image_exists fs (image_file_ok fs).
Proof using Pprint.
  clear Psearch_target Psearch_both.
  unfold validate_test_image_exists, image_file_ok.
  pstep. pstep.
  destruct (fs !! image_path) as [f|] eqn:Ef; simpl.
  2:{ pstep. now apply reads_only_ret. }
  eapply reads_only_bind; [apply os_path_getsize_reads; exact Ef|].
  pstep. pstep.
  eapply reads_only_bind.
  { destruct (getsize f <? 1000);
      [apply reads_only_emit; apply Pprint | now apply reads_only_ret]. }
  eapply reads_only_bind.
  { destruct (getsize f >? 50000);
      [apply reads_only_emit; apply Pprint | now apply reads_only_ret]. }
  now apply reads_only_ret.
Qed.

Lemma validate_project_dependencies_emits :
  reads_only P validate_project_dependencies fs (dependencies_ok fs).
Proof using Pprint Popen.
  clear Psearch_target Psearch_both.
  unfold validate_project_dependencies, dependencies_ok.
  generalize required_packages. intros packages.
  pstep. pstep.
  destruct (fs !! csproj_path) as [f|] eqn:Ef; simpl.
  2:{ pstep. close_false. now rewrite (missing_unusable _ _ Ef). }
  pstep. fold (usable fs csproj_path).
  destruct (usable fs csproj_path) eqn:Uc; simpl; [|now close_false].
  pstep.
  eapply reads_only_bind; [|apply reads_only_ret; reflexivity].
  apply (reads_only_for_each_all _ _ _
           (fun pkg => str_contains pkg (default EmptyString (text_of fs csproj_path)))).
  intros package acc. apply contains_round_emits.
Qed.

Lemma validate_env_file_emits :
  reads_only P validate_env_file fs (environment_ok fs).
Proof using Pprint Popen.
  clear Psearch_target Psearch_both.
  unfold validate_env_file, environment_ok.
  generalize required_vars. intros vars.
  pstep. pstep.
  destruct (fs !! env_path) as [f|] eqn:Ef; simpl.
  2:{ pstep. close_false. now rewrite (missing_unusable _ _ Ef). }
  pstep. fold (usable fs env_path).
  destruct (usable fs env_path) eqn:Ue; simpl; [|now close_false].
  pstep.
  eapply reads_only_bind; [|apply reads_only_ret; reflexivity].
  apply (reads_only_for_each_all _ _ _
           (fun v => str_contains v (default EmptyString (text_of fs env_path)))).
  intros var acc. apply contains_round_emits.
Qed.

Lemma generate_test_summary_emits : reads_only P generate_test_summary fs tt.
Proof using Pprint. unfold generate_test_summary. repeat pstep. apply reads_only_emit, Pprint. Qed.

Lemma trace_bind_emits {A B} (m : M A) (k : A -> M B) a :
  reads_only P m fs a -> Forall P (trace_of (k a fs)) ->
  Forall P (trace_of (bind m k fs)).
Proof using Type.
  intros (t & Hm & Ht) Hk.
  rewrite (bind_returns _ _ _ _ _ _ Hm). cbn [trace_of fst].
  apply Forall_app. now split.
Qed.

Ltac tstep lem :=
  eapply trace_bind_emits; [ first [ apply reads_only_emit; apply Pprint | apply lem ] | cbv beta ].

Lemma main_emits : Forall P (trace_of (main re_search fs)).
Proof using Pprint Popen Psearch_target Psearch_both.
  unfold main.
  tstep I. tstep I.
  tstep validate_test_structure_emits.
  tstep validate_image_specific_logic_emits.
  tstep validate_test_image_exists_emits.
  tstep validate_authentication_pattern_emits.
  tstep validate_project_dependencies_emits.
  tstep validate_env_file_emits.
  tstep generate_test_summary_emits.
  tstep I. tstep I.
  match goal with
  | |- Forall P (trace_of (bind (for_each ?l _ _) _ _)) => generalize l
  end.
  intros validation_results.
  eapply trace_bind_emits.
  { apply (reads_only_for_each_all _ _ _ snd).
    intros [name result] acc. unfold reads_only, bind, print, emit, ret.
    destruct result, acc; simpl; eexists; (split; [reflexivity|]);
      repeat constructor; apply Pprint. }
  generalize (forallb snd validation_results). intros all_passed.
  tstep I.
  destruct all_passed; simpl; repeat constructor; apply Pprint.
Qed.
End Emits.

Lemma no_search_events (t : list (event libcall)) :
  Forall searches_nothing t -> searches t = [].
Proof.
  unfold searches, calls.
  induction 1 as [|e t He _ IH]; [reflexivity|].
  destruct e as [line|[path|pattern content]]; simpl in *; [exact IH|exact IH|contradiction].
Qed.

Lemma known_files_only (t : list (event libcall)) path :
  Forall opens_known_files t -> In path (opened_paths t) -> In path read_paths.
Proof.
  unfold opened_paths, calls.
  induction 1 as [|e t He _ IH]; [intros []|].
  destruct e as [line|[path'|pattern content]]; simpl in *; try exact IH.
  intros [<-|Hin]; [exact He|now apply IH].
Qed.

(** X6: when the target test file or the reference test file is missing,
    unreadable or empty, [validate_test_structure] and
    [validate_authentication_pattern] both return False, and neither runs a
    single regex search. *)
Theorem pattern_sections_fail_without_a_search_on_an_unusable_file (fs : filesystem) :
  usable fs test_file && usable fs working_test = false ->
  (outcome_of (validate_test_structure re_search fs) = Returns false /\
   searches (trace_of (validate_test_structure re_search fs)) = []) /\
  (outcome_of (validate_authentication_pattern re_search fs) = Returns false /\
   searches (trace_of (validate_authentication_pattern re_search fs)) = []).
Proof.
  intros Hun.
  assert (Hgate : forall pattern content,
             usable fs test_file = true -> usable fs working_test = true ->
             searches_nothing (Call (ReSearch pattern content))).
  { intros pattern content Ut Uw. rewrite Ut, Uw in Hun. discriminate Hun. }
  pose proof (validate_test_structure_emits fs searches_nothing
                (fun _ => I) (fun _ _ => I) Hgate) as Hs.
  pose proof (validate_authentication_pattern_emits fs searches_nothing
                (fun _ => I) (fun _ _ => I) Hgate) as Ha.
  split; split.
  - rewrite (reads_only_outcome _ _ _ _ Hs). unfold structure_ok. now rewrite Hun.
  - apply no_search_events. exact (reads_only_trace _ _ _ _ Hs).
  - rewrite (reads_only_outcome _ _ _ _ Ha). unfold authentication_ok. now rewrite Hun.
  - apply no_search_events. exact (reads_only_trace _ _ _ _ Ha).
Qed.

(** X7: a run of the auditor leaves the file system as it found it, and the
    only files it opens are the target test, the reference test, the project
    file and the .env file; the test image is looked for but never opened. *)
Theorem main_opens_only_the_four_text_files (fs : filesystem) :
  state_of (main re_search fs) = fs /\
  (forall path, In path (opened_paths (trace_of (main re_search fs))) ->
                In path read_paths) /\
  ~ In image_path (opened_paths (trace_of (main re_search fs))).
Proof.
  assert (Hknown : Forall opens_known_files (trace_of (main re_search fs))).
  { apply main_emits.
    - intros line. exact I.
    - intros path Hin. exact Hin.
    - intros pattern content _. exact I.
    - intros pattern content _ _. exact I. }
  split; [|split].
  - apply (main_verdict re_search fs).
  - intros path. now apply known_files_only.
  - intros Hin. apply (known_files_only _ _ Hknown) in Hin.
    unfold read_paths in Hin. simpl in Hin.
    destruct Hin as [H|[H|[H|[H|[]]]]]; discriminate H.
Qed.

Lemma printed_bind_in {A B} (m : M A) (k : A -> M B) (fs : filesystem) a line :
  reads_only (fun _ => True) m fs a ->
  In line (printed (trace_of (k a fs))) ->
  In line (printed (trace_of (bind m k fs))).
Proof.
  intros (t & Hm & _) Hin.
  rewrite (bind_returns _ _ _ _ _ _ Hm). cbn [trace_of fst].
  rewrite printed_app. apply in_app_iff. now right.
Qed.

Ltac anything := first [ intros ? ? ? ?; exact I | intros ? ? ?; exact I
                       | intros ? ?; exact I | intros ?; exact I ].

Ltac past lem :=
  eapply printed_bind_in;
  [ first [ apply reads_only_emit; exact I | apply lem; anything ] | cbv beta ].

Ltac found := repeat (first [ left; reflexivity | right ]).

(** X8: a failing section does not stop the later ones.  Whatever the file
    system holds, each of the six sections returns, and the results table
    that [main] prints holds the line with that section's name and PASS or
    FAIL according to what the section returned. *)
Theorem main_reports_every_section (fs : filesystem) name section :
  In (name, section) (sections re_search) ->
  exists result,
    outcome_of (section fs) = Returns result /\
    In (result_line name result) (printed (trace_of (main re_search fs))).
Proof.
  intros Hin.
  pose proof (validate_test_structure_emits fs (fun _ => True)) as H1.
  pose proof (validate_image_specific_logic_emits fs (fun _ => True)) as H2.
  pose proof (validate_test_image_exists_emits fs (fun _ => True)) as H3.
  pose proof (validate_authentication_pattern_emits fs (fun _ => True)) as H4.
  pose proof (validate_project_dependencies_emits fs (fun _ => True)) as H5.
  pose proof (validate_env_file_emits fs (fun _ => True)) as H6.
  assert (Hline : forall b1 b2 b3 b4 b5 b6 : bool,
             structure_ok re_search fs = b1 -> image_logic_ok re_search fs = b2 ->
             image_file_ok fs = b3 -> authentication_ok re_search fs = b4 ->
             dependencies_ok fs = b5 -> environment_ok fs = b6 ->
             forall line,
               In line [ result_line "Test Structure" b1; result_line "Image Logic" b2;
                         result_line "Test Image File" b3; result_line "Authentication" b4;
                         result_line "Dependencies" b5; result_line "Environment" b6 ] ->
               In line (printed (trace_of (main re_search fs)))).
  { intros b1 b2 b3 b4 b5 b6 E1 E2 E3 E4 E5 E6 line Hl.
    unfold main.
    past I. past I.
    past H1. past H2. past H3. past H4. past H5. past H6.
    rewrite E1, E2, E3, E4, E5, E6.
    past generate_test_summary_emits.
    destruct b1, b2, b3, b4, b5, b6; vm_compute in Hl |- *;
      decompose [or] Hl; try contradiction; subst line; found. }
  unfold sections in Hin. simpl in Hin.
  decompose [or] Hin; try contradiction;
    match goal with H : (_, _) = (_, _) |- _ => injection H as <- <- end;
    eexists; (split; [eapply reads_only_outcome; first [apply H1|apply H2|apply H3|apply H4|apply H5|apply H6]; anything|]);
    eapply Hline; try reflexivity; simpl; tauto.
Qed.

End WithRegexEngine.

(** ** The properties at work *)

(** Without the .env file the table shows the environment section as
    failed and the structure section, which ran first, as passed. *)
Lemma table_without_the_env_file :
  In (result_line "Environment" false)
     (printed (trace_of (main AsciiRe.search fs_without_env))) /\
  In (result_line "Test Structure" true)
     (printed (trace_of (main AsciiRe.search fs_without_env))).
Proof.
  split.
  - destruct (main_reports_every_section AsciiRe.search fs_without_env
                "Environment" validate_env_file) as (result & Hr & Hin).
    + unfold sections. simpl. tauto.
    + vm_compute in Hr. injection Hr as <-. exact Hin.
  - destruct (main_reports_every_section AsciiRe.search fs_without_env
                "Test Structure" (validate_test_structure AsciiRe.search))
      as (result & Hr & Hin).
    + unfold sections. simpl. tauto.
    + vm_compute in Hr. injection Hr as <-. exact Hin.
Defined.

(** A reference test that is empty, or not there, fails the structure and
    the authentication section of an otherwise complete file system, with
    no search made. *)
Lemma complete_target_with_an_empty_or_missing_reference :
  ((outcome_of (validate_test_structure AsciiRe.search fs_empty_reference) = Returns false /\
    searches (trace_of (validate_test_structure AsciiRe.search fs_empty_reference)) = []) /\
   (outcome_of (validate_authentication_pattern AsciiRe.search fs_empty_reference)
      = Returns false /\
    searches (trace_of (validate_authentication_pattern AsciiRe.search fs_empty_reference))
      = [])) /\
  outcome_of (validate_test_structure AsciiRe.search fs_without_reference) = Returns false.
Proof.
  split.
  - apply (pattern_sections_fail_without_a_search_on_an_unusable_file
             AsciiRe.search fs_empty_reference).
    vm_compute. reflexivity.
  - apply (pattern_sections_fail_without_a_search_on_an_unusable_file
             AsciiRe.search fs_without_reference).
    vm_compute. reflexivity.
Defined.

(** Without the reference test the image section gives what it gives on the
    complete file system. *)
Lemma image_logic_ignores_the_missing_reference :
  outcome_of (validate_image_specific_logic AsciiRe.search fs_without_reference) =
  outcome_of (validate_image_specific_logic AsciiRe.search fs_complete).
Proof.
  apply (proj2 (proj2 (image_logic_is_decided_by_the_target_alone
                         AsciiRe.search fs_complete))).
  vm_compute. reflexivity.
Defined.

(** The 2048-byte image of the complete file system passes without a
    warning. *)
Lemma image_of_2048_bytes_passes_unwarned :
  outcome_of (validate_test_image_exists fs_complete) = Returns true /\
  warnings (trace_of (validate_test_image_exists fs_complete)) = [].
Proof.
  apply (test_image_check_warns_but_never_fails_on_size fs_complete
           {| getsize := 2048; read := Undecodable "invalid start byte" |}).
  vm_compute. reflexivity.
Defined.

(** Comment lines around the entries of a passing .env file, and around the
    references of a passing project file, change nothing. *)
Lemma commented_env_and_project_files_still_pass :
  outcome_of (validate_project_dependencies
                (<[csproj_path := text_file ("<!-- head -->" ++ complete_csproj ++ "<!-- tail -->")]>
                   fs_complete)) = Returns true /\
  outcome_of (validate_env_file
                (<[env_path := text_file ("# head" ++ nl ++
                                          ("TEST_USERNAME=u" ++ nl ++ "TEST_PASSWORD=p") ++
                                          nl ++ "# tail")]>
                   fs_complete)) = Returns true.
Proof.
  split.
  - apply (proj1 (substring_checks_survive_added_text fs_complete
             (text_file ("<!-- head -->" ++ complete_csproj ++ "<!-- tail -->"))
             "<!-- head -->" complete_csproj "<!-- tail -->" eq_refl));
      vm_compute; reflexivity.
  - apply (proj2 (substring_checks_survive_added_text fs_complete
             (text_file ("# head" ++ nl ++ ("TEST_USERNAME=u" ++ nl ++ "TEST_PASSWORD=p") ++
                         nl ++ "# tail"))
             ("# head" ++ nl) ("TEST_USERNAME=u" ++ nl ++ "TEST_PASSWORD=p")
             (nl ++ "# tail") eq_refl));
      vm_compute; reflexivity.
Defined.

(** A stray file elsewhere on the disk does not change the verdict. *)
Lemma stray_file_does_not_change_the_verdict :
  exit_code AsciiRe.search fs_complete = exit_code AsciiRe.search fs_with_a_stray_file /\
  reports_all_passed AsciiRe.search fs_complete =
  reports_all_passed AsciiRe.search fs_with_a_stray_file.
Proof.
  apply (verdict_depends_on_the_watched_paths_only AsciiRe.search
           fs_complete fs_with_a_stray_file).
  intros path Hin. unfold fs_with_a_stray_file.
  rewrite lookup_insert_ne; [reflexivity|].
  intros <-. vm_compute in Hin. intuition discriminate.
Defined.

End AuditorExtra.

(* ================================================================== *)
(** * The image script: further properties *)
(* ================================================================== *)

Module ImageExtra.
Import Py PyFacts PyMore ImageScript ImageSpec ImageFacts ImageMore.

Ltac plain_print := apply ends_print; reflexivity.

Ltac estep :=
  eapply ends_bind;
  [ first [ plain_print | apply ends_get | apply ends_call; exact I ] | cbv beta ].

(** ** Runs that change the state *)

Lemma runs_to_bind {St C A B} (m : Py.M St C A) (k : A -> Py.M St C B)
    s cs s' a cs' s'' o :
  runs_to m s cs s' (Returns a) -> runs_to (k a) s' cs' s'' o ->
  runs_to (bind m k) s (cs ++ cs')%list s'' o.
Proof.
  intros (t & Hm & Hc) (t' & Hk & Hc').
  exists (t ++ t')%list. split.
  - now rewrite (bind_returns _ _ _ _ _ _ Hm), Hk.
  - rewrite calls_app. now subst.
Qed.

Lemma runs_to_bind_raises {St C A B} (m : Py.M St C A) (k : A -> Py.M St C B)
    s cs s' e :
  runs_to m s cs s' (Raises e) -> runs_to (bind m k) s cs s' (Raises e).
Proof.
  intros (t & Hm & Hc). exists t. split; [|exact Hc].
  now rewrite (bind_raises _ _ _ _ _ _ Hm).
Qed.

Lemma ends_runs_to {St C A} P (m : Py.M St C A) s o cs :
  ends P m s o cs -> runs_to m s cs s o.
Proof. intros (t & Hm & _ & Hc). now exists t. Qed.

Lemma runs_to_eq {St C A} (m : Py.M St C A) s cs cs' s' o o' :
  runs_to m s cs s' o -> cs = cs' -> o = o' -> runs_to m s cs' s' o'.
Proof. now intros H <- <-. Qed.

Lemma runs_to_run {St C A} (m : Py.M St C A) s cs s' o :
  runs_to m s cs s' o ->
  calls (trace_of (m s)) = cs /\ state_of (m s) = s' /\ outcome_of (m s) = o.
Proof. intros (t & Hm & Hc). rewrite Hm. now repeat split. Qed.

(** Without the test directory [main] stops at once. *)
Lemma main_without_directory env (fs : filesystem) :
  fs !! tests_dir = None ->
  ends no_creation (main env) fs (Raises (SystemExit 1)) [].
Proof.
  intros Hdir. unfold main.
  eapply ends_bind with (cs := []) (a := tt); [plain_print|].
  eapply ends_bind with (cs := []) (a := tt); [plain_print|].
  eapply ends_bind with (cs := []); [apply validate_test_setup_ends|].
  rewrite Hdir. cbn [bool_decide decide_rel is_Some_dec negb].
  apply ends_bind_raises.
  eapply ends_eq; [estep; apply ends_raise | reflexivity | reflexivity].
Qed.

Lemma create_test_image_runs_to env path fs :
  match load_default env with
  | FontLoaded fnt =>
      let img := finished_picture (Some fnt) in
      runs_to (create_test_image env path) fs [ImageSave path img]
        (match save_as env path img with
         | Saved f => <[path := f]> fs
         | _ => fs
         end)
        (match save_as env path img with
         | Saved f => Returns img
         | SaveOSError msg => Raises (OSError msg)
         | SaveValueError msg => Raises (ValueError msg)
         end)
  | FontFails msg =>
      runs_to (create_test_image env path) fs [] fs (Raises (OSError msg))
  end.
Proof.
  pose proof (create_test_image_run env path fs) as Hrun. cbv zeta in Hrun.
  destruct (load_default env) as [fnt|msg]; cbv zeta.
  - destruct Hrun as [Ht Hsave].
    exists (trace_of (create_test_image env path fs)). split; [|now rewrite Ht].
    rewrite (run_eta (create_test_image env path fs)) at 1.
    destruct (save_as env path (finished_picture (Some fnt)));
      destruct Hsave as [-> ->]; reflexivity.
  - destruct Hrun as (Ht & Ho & Hs).
    exists (trace_of (create_test_image env path fs)). split; [|now rewrite Ht].
    rewrite (run_eta (create_test_image env path fs)) at 1. now rewrite Ho, Hs.
Qed.

(** What [main] does after the analysis. *)
Lemma main_after_analysis (fs : filesystem) (analysis_ok : bool) :
  runs_to
    ((if negb analysis_ok then print "❌ Image analysis failed";; sys_exit 1
      else ret tt);;
     do expected_keywords <- simulate_claude_analysis;
     create_test_summary;;
     print (nl ++ "🎯 Test Image Ready!");;
     print ("   Path: " ++ test_image_path);;
     print "   The E2E test should upload this image to Claude Batch Server";;
     print "   and verify Claude Code correctly identifies the visual elements.";;
     print (nl ++ "✅ Manual validation complete - ready for E2E test execution!"))
    fs [] fs (if analysis_ok then Returns tt else Raises (SystemExit 1)).
Proof.
  apply (ends_runs_to no_creation).
  destruct analysis_ok; cbn [negb].
  - eapply ends_bind with (cs := []) (a := tt); [now apply ends_ret|].
    destruct (simulate_claude_analysis_ends fs) as [keywords Hk].
    eapply ends_bind with (cs := []); [exact Hk|].
    eapply ends_bind with (cs := []); [apply create_test_summary_ends|].
    eapply ends_eq; [repeat estep; plain_print | reflexivity | reflexivity].
  - apply ends_bind_raises.
    eapply ends_eq; [estep; apply ends_raise | reflexivity | reflexivity].
Qed.

(** [main] when the directory is there and the image is not. *)
Lemma main_generating env (fs : filesystem) :
  fs !! test_image_path = None -> is_Some (fs !! tests_dir) ->
  match load_default env with
  | FontLoaded fnt =>
      let img := finished_picture (Some fnt) in
      match save_as env test_image_path img with
      | Saved f =>
          runs_to (main env) fs
            [ImageSave test_image_path img; ImageOpen test_image_path]
            (<[test_image_path := f]> fs)
            (if analysis_passes (<[test_image_path := f]> fs) test_image_path
             then Returns tt else Raises (SystemExit 1))
      | SaveOSError msg =>
          runs_to (main env) fs [ImageSave test_image_path img] fs (Raises (OSError msg))
      | SaveValueError msg =>
          runs_to (main env) fs [ImageSave test_image_path img] fs (Raises (ValueError msg))
      end
  | FontFails msg => runs_to (main env) fs [] fs (Raises (OSError msg))
  end.
Proof.
  intros Himg Hdir. cbv zeta.
  pose proof (create_test_image_runs_to env test_image_path fs) as Hcreate.
  assert (Hprefix : forall cs s' (o : outcome unit) (k : Py.M filesystem libcall unit),
            runs_to ((create_test_image env test_image_path;; ret tt);; k) fs cs s' o ->
            runs_to
              (print "🧪 Image Analysis E2E Test - Manual Validation";;
               print (str_repeat "=" 60);;
               do setup_ok <- validate_test_setup;
               (if negb setup_ok then
                  print "❌ Test environment validation failed";; sys_exit 1
                else ret tt);;
               do image_exists <- os_path_exists test_image_path;
               (if image_exists then
                  print ("📁 Test image already exists: " ++ test_image_path)
                else create_test_image env test_image_path;; ret tt);;
               k) fs cs s' o).
  { intros cs s' o k Hk.
    eapply runs_to_eq; [|reflexivity|reflexivity].
    eapply runs_to_bind with (cs := []); [apply (ends_runs_to no_creation); plain_print|].
    eapply runs_to_bind with (cs := []); [apply (ends_runs_to no_creation); plain_print|].
    eapply runs_to_bind with (cs := []);
      [apply (ends_runs_to no_creation); apply validate_test_setup_ends|].
    rewrite (bool_decide_eq_true_2 _ Hdir). cbn [negb].
    eapply runs_to_bind with (cs := []);
      [apply (ends_runs_to no_creation); now apply ends_ret|].
    eapply runs_to_bind with (cs := []);
      [apply (ends_runs_to no_creation); apply os_path_exists_ends|].
    rewrite Himg. cbn [bool_decide decide_rel is_Some_dec]. exact Hk. }
  unfold main. cbv zeta.
  destruct (load_default env) as [fnt|msg0];
    [|apply Hprefix; apply runs_to_bind_raises; apply runs_to_bind_raises; exact Hcreate].
  cbv zeta in Hcreate.
  destruct (save_as env test_image_path (finished_picture (Some fnt)))
    as [f|msg|msg]; apply Hprefix.
  - eapply runs_to_eq.
    + eapply runs_to_bind.
      { eapply runs_to_bind; [exact Hcreate|].
        apply (ends_runs_to no_creation). now apply ends_ret. }
      eapply runs_to_bind.
      { apply (ends_runs_to no_creation). apply analyze_test_image_ends. }
      apply main_after_analysis.
    + rewrite lookup_insert_eq. reflexivity.
    + reflexivity.
  - apply runs_to_bind_raises. apply runs_to_bind_raises. exact Hcreate.
  - apply runs_to_bind_raises. apply runs_to_bind_raises. exact Hcreate.
Qed.

(** ** The last line of a run *)

Lemma last_app_some {A} (l1 l2 : list A) x : last l2 = Some x -> last (l1 ++ l2) = Some x.
Proof.
  intros H. destruct l2 as [|y l2]; [discriminate|].
  rewrite last_app. now rewrite H.
Qed.

Lemma last_printed_bind {St C A B} (m : Py.M St C A) (k : A -> Py.M St C B)
    s cs s' a line :
  runs_to m s cs s' (Returns a) -> last_printed (k a s') = Some line ->
  last_printed (bind m k s) = Some line.
Proof.
  intros (t & Hm & _) Hk. unfold last_printed in *.
  rewrite (bind_returns _ _ _ _ _ _ Hm). cbn [trace_of fst].
  rewrite printed_app. now apply last_app_some.
Qed.

Lemma last_printed_try_caught {St C A} (m : Py.M St C A) catches h s cs s' e line :
  runs_to m s cs s' (Raises e) -> catches e = true ->
  last_printed (h e s') = Some line ->
  last_printed (try_except m catches h s) = Some line.
Proof.
  intros (t & Hm & _) He Hh. unfold last_printed, try_except in *.
  rewrite Hm, He. destruct (h e s') as [[t' s''] o]. cbn [trace_of fst] in *.
  rewrite printed_app. now apply last_app_some.
Qed.

Lemma last_printed_try_returns {St C A} (m : Py.M St C A) catches h s cs s' a :
  runs_to m s cs s' (Returns a) ->
  last_printed (try_except m catches h s) = last_printed (m s).
Proof.
  intros (t & Hm & _). unfold last_printed, try_except. now rewrite Hm.
Qed.

Ltac quiet := apply (ends_runs_to no_creation).

(** X9: the last line [analyze_test_image] prints names the first check that
    failed, in the order existence, opening and decoding, file size,
    dimensions; the function returns True exactly when no check failed. *)
Theorem analyze_test_image_reports_the_first_failed_check fs path :
  last_printed (analyze_test_image path fs) = Some (closing_line path (diagnose fs path)) /\
  (outcome_of (analyze_test_image path fs) = Returns true <-> diagnose fs path = Passed).
Proof.
  split.
  - unfold analyze_test_image, diagnose.
    eapply last_printed_bind; [quiet; plain_print|].
    eapply last_printed_bind; [quiet; apply os_path_exists_ends|].
    destruct (fs !! path) as [f|] eqn:Ef; cbn [bool_decide negb decide_rel is_Some_dec];
      [|reflexivity].
    pose proof (Image_open_ends fs path f Ef) as Hopen.
    destruct (pil f) as [msg|o].
    { eapply last_printed_try_caught;
        [quiet; apply ends_bind_raises; exact Hopen | reflexivity | reflexivity]. }
    destruct (o_getcolors o) as [msg|cs] eqn:Ecs.
    { eapply last_printed_try_caught;
        [ quiet; eapply ends_bind; [exact Hopen|]; do 4 estep;
          apply ends_bind_raises; unfold getcolors; rewrite Ecs; apply ends_raise
        | reflexivity | reflexivity ]. }
    assert (Hblock : forall b line (k : opened -> Z -> Py.M filesystem libcall bool),
               ends no_creation (k o (getsize f)) fs (Returns b) [] ->
               last_printed (k o (getsize f) fs) = Some line ->
               last_printed
                 (try_except
                    (do img <- Image_open path;
                     print "✅ Image loaded successfully";;
                     print ("   Size: " ++ str_pair (o_size img));;
                     print ("   Mode: " ++ o_mode img);;
                     print ("   Format: " ++ str_option (o_format img));;
                     do colors <- getcolors img;
                     let num_colors :=
                       match colors with
                       | Some (c :: cs) => str_int (Z.of_nat (length (c :: cs)))
                       | _ => "many"
                       end in
                     print ("   Unique colors: " ++ num_colors);;
                     do file_size <- os_path_getsize path;
                     print ("   File size: " ++ str_int file_size ++ " bytes");;
                     k img file_size)
                    is_Exception
                    (fun e => print ("❌ Error analyzing image: " ++ str_exn e);; ret false)
                    fs) = Some line).
    { intros b line k Hk Hline.
      erewrite last_printed_try_returns.
      2:{ quiet. eapply ends_eq; [|reflexivity|reflexivity].
          eapply ends_bind; [exact Hopen|].
          do 4 estep.
          eapply ends_bind; [unfold getcolors; rewrite Ecs; now apply ends_ret|].
          estep.
          eapply ends_bind; [apply os_path_getsize_ends; exact Ef|].
          estep. exact Hk. }
      eapply last_printed_bind; [quiet; exact Hopen|].
      do 4 (eapply last_printed_bind; [quiet; plain_print|]).
      eapply last_printed_bind;
        [quiet; unfold getcolors; rewrite Ecs; now apply ends_ret|].
      eapply last_printed_bind; [quiet; plain_print|].
      eapply last_printed_bind; [quiet; apply os_path_getsize_ends; exact Ef|].
      eapply last_printed_bind; [quiet; plain_print|].
      exact Hline. }
    destruct (getsize f <? 100) eqn:Esize;
      [|destruct (pair_eqb (o_size o) (400, 300)) eqn:Edims];
      (eapply Hblock; cbv beta; rewrite ?Esize, ?Edims; cbn [negb];
       [ eapply ends_eq; [estep; now apply ends_ret | reflexivity | reflexivity]
       | reflexivity ]).
  - destruct (ends_run _ _ _ _ _ (analyze_test_image_ends fs path)) as (_ & -> & _).
    unfold analysis_passes, diagnose.
    destruct (fs !! path) as [f|]; [|split; discriminate].
    destruct (pil f) as [|o]; [split; discriminate|].
    destruct (o_getcolors o); [split; discriminate|].
    replace (100 <=? getsize f) with (negb (getsize f <? 100)) by lia.
    destruct (getsize f <? 100); cbn [negb andb]; [split; discriminate|].
    destruct (pair_eqb (o_size o) (400, 300)); split; (reflexivity || discriminate).
Qed.

(** ** [main] as a whole *)

Lemma tests_dir_is_not_the_image : test_image_path <> tests_dir.
Proof. apply String.eqb_neq. vm_compute. reflexivity. Qed.

(** The three ways [main] can go, by what it finds. *)
Lemma main_state_cases env (fs : filesystem) :
  state_of (main env fs) = fs \/
  exists f, fs !! test_image_path = None /\ is_Some (fs !! tests_dir) /\
            written_file env test_image_path = Some f /\
            state_of (main env fs) = <[test_image_path := f]> fs.
Proof.
  destruct (fs !! tests_dir) as [d|] eqn:Hdir.
  2:{ left. now destruct (ends_run _ _ _ _ _ (main_without_directory env fs Hdir)). }
  destruct (fs !! test_image_path) as [f|] eqn:Himg.
  { left. now destruct (ends_run _ _ _ _ _ (main_with_existing_image env fs f Himg)). }
  assert (Hd : is_Some (fs !! tests_dir)) by (rewrite Hdir; eauto).
  pose proof (main_generating env fs Himg Hd) as Hgen. cbv zeta in Hgen.
  unfold written_file.
  destruct (load_default env) as [fnt|msg0];
    [|apply runs_to_run in Hgen as (_ & Hs & _); now left].
  destruct (save_as env test_image_path (finished_picture (Some fnt)))
    as [f|msg|msg] eqn:Hsave;
    apply runs_to_run in Hgen as (_ & Hs & _).
  - right. exists f. repeat split; eauto.
  - now left.
  - now left.
Qed.

(** X10: [main] never changes any file but the test image. *)
Theorem main_only_touches_the_test_image env (fs : filesystem) path :
  path <> test_image_path ->
  state_of (main env fs) !! path = fs !! path.
Proof.
  intros Hpath.
  destruct (main_state_cases env fs) as [->|(f & _ & _ & _ & ->)]; [reflexivity|].
  now apply lookup_insert_ne.
Qed.

(** X11: a second run of [main] changes nothing: what the first run left is
    what the second run leaves. *)
Theorem main_twice_leaves_what_the_first_run_left env (fs : filesystem) :
  state_of (main env (state_of (main env fs))) = state_of (main env fs).
Proof.
  destruct (main_state_cases env fs) as [Hs|(f & Himg & Hdir & Hsave & Hs)]; rewrite Hs.
  - exact Hs.
  - assert (Hf : (<[test_image_path := f]> fs) !! test_image_path = Some f)
      by apply lookup_insert_eq.
    now destruct (ends_run _ _ _ _ _ (main_with_existing_image env _ f Hf)).
Qed.

(** X12: generating the image and analysing it passes whenever the default
    font loads and the encoder is faithful: the file it writes is at least
    100 bytes long and reads back with the size of the image.  When the font
    cannot be loaded nothing is analysed: the error of the generator ends
    the run. *)
Theorem generated_image_passes_the_analysis env path (fs : filesystem) :
  (forall fnt, load_default env = FontLoaded fnt ->
     faithful_save env path (finished_picture (Some fnt)) ->
     outcome_of ((create_test_image env path;; analyze_test_image path) fs) = Returns true) /\
  (forall msg, load_default env = FontFails msg ->
     outcome_of ((create_test_image env path;; analyze_test_image path) fs)
       = Raises (OSError msg) /\
     calls (trace_of ((create_test_image env path;; analyze_test_image path) fs)) = []).
Proof.
  pose proof (create_test_image_runs_to env path fs) as Hcreate.
  split.
  - intros fnt Hfont (f & o & cs & Hsave & Hsize & Hpil & Hdims & Hcolors).
    rewrite Hfont in Hcreate. cbv zeta in Hcreate. rewrite Hsave in Hcreate.
    pose proof (ends_runs_to _ _ _ _ _ (analyze_test_image_ends (<[path := f]> fs) path))
      as Hanalyze.
    destruct (runs_to_run _ _ _ _ _ (runs_to_bind _ (fun _ => analyze_test_image path)
                                          _ _ _ _ _ _ _ Hcreate Hanalyze))
      as (_ & _ & ->).
    f_equal. unfold analysis_passes. rewrite lookup_insert_eq, Hpil, Hcolors, Hdims.
    apply andb_true_iff. split; [lia | reflexivity].
  - intros msg Hfont. rewrite Hfont in Hcreate.
    destruct (runs_to_run _ _ _ _ _
                (runs_to_bind_raises _ (fun _ => analyze_test_image path) _ _ _ _ Hcreate))
      as (Hc & _ & Ho).
    now split.
Qed.

(** X13: [main] ends with exit status 0 exactly when the test directory
    exists and the image that is analysed passes: the image found at the
    path or, when there is none, the image just written; in every other
    case, among them a default font that cannot be loaded and a save that
    raises, the exit status is 1. *)
Theorem main_exit_status env (fs : filesystem) :
  exit_status (outcome_of (main env fs)) = if main_passes env fs then 0 else 1.
Proof.
  unfold main_passes.
  destruct (fs !! tests_dir) as [d|] eqn:Hdir.
  2:{ destruct (ends_run _ _ _ _ _ (main_without_directory env fs Hdir)) as (_ & -> & _).
      reflexivity. }
  assert (Hd : is_Some (Some d)) by eauto.
  rewrite (bool_decide_eq_true_2 _ Hd). cbn [andb].
  destruct (fs !! test_image_path) as [f|] eqn:Himg.
  { destruct (ends_run _ _ _ _ _ (main_with_existing_image env fs f Himg)) as (_ & -> & _).
    rewrite Hdir, (bool_decide_eq_true_2 _ Hd).
    now destruct (analysis_passes fs test_image_path). }
  rewrite <- Hdir in Hd.
  pose proof (main_generating env fs Himg Hd) as Hgen. cbv zeta in Hgen.
  unfold written_file.
  destruct (load_default env) as [fnt|msg0];
    [|apply runs_to_run in Hgen as (_ & _ & ->); reflexivity].
  destruct (save_as env test_image_path (finished_picture (Some fnt)))
    as [f|msg|msg]; apply runs_to_run in Hgen as (_ & _ & ->); [|reflexivity|reflexivity].
  now destruct (analysis_passes _ test_image_path).
Qed.

(** X14: when the image has to be generated and the generator raises,
    [main] has no handler: the exception ends the run with exit status 1, the
    file system is as before, and no image is opened for analysis.  After a
    failed [img.save] the save is the only library call made; when the
    default font cannot be loaded, no call is made at all. *)
Theorem main_lets_a_failed_generation_through env (fs : filesystem) :
  fs !! test_image_path = None -> is_Some (fs !! tests_dir) ->
  (forall fnt e,
     load_default env = FontLoaded fnt ->
     (exists msg,
        save_as env test_image_path (finished_picture (Some fnt)) = SaveOSError msg /\
        e = OSError msg) \/
     (exists msg,
        save_as env test_image_path (finished_picture (Some fnt)) = SaveValueError msg /\
        e = ValueError msg) ->
     outcome_of (main env fs) = Raises e /\
     exit_status (outcome_of (main env fs)) = 1 /\
     state_of (main env fs) = fs /\
     calls (trace_of (main env fs)) =
       [ImageSave test_image_path (finished_picture (Some fnt))]) /\
  (forall msg,
     load_default env = FontFails msg ->
     outcome_of (main env fs) = Raises (OSError msg) /\
     exit_status (outcome_of (main env fs)) = 1 /\
     state_of (main env fs) = fs /\
     calls (trace_of (main env fs)) = []).
Proof.
  intros Himg Hdir.
  pose proof (main_generating env fs Himg Hdir) as Hgen. cbv zeta in Hgen.
  split.
  - intros fnt e Hfont Hsave. rewrite Hfont in Hgen.
    destruct Hsave as [(msg & Hsave & ->)|(msg & Hsave & ->)]; rewrite Hsave in Hgen;
      apply runs_to_run in Hgen as (Hc & Hs & Ho); rewrite Ho; repeat split; assumption.
  - intros msg Hfont. rewrite Hfont in Hgen.
    apply runs_to_run in Hgen as (Hc & Hs & Ho). rewrite Ho. repeat split; assumption.
Qed.

(** X15: without the test directory [main] exits with status 1 at once: it
    neither creates nor opens an image, whatever else the file system holds. *)
Theorem main_stops_without_the_test_directory env (fs : filesystem) :
  fs !! tests_dir = None ->
  outcome_of (main env fs) = Raises (SystemExit 1) /\
  calls (trace_of (main env fs)) = [] /\
  state_of (main env fs) = fs.
Proof.
  intros Hdir.
  destruct (ends_run _ _ _ _ _ (main_without_directory env fs Hdir)) as (Hs & Ho & _ & Hc).
  now repeat split.
Qed.

(** ** The image script on concrete worlds, continued *)

Lemma tests_directory_survives_a_run :
  state_of (main (pillow_writing 1500) fs_empty_tests_dir) !! tests_dir = Some directory.
Proof.
  rewrite (main_only_touches_the_test_image (pillow_writing 1500) fs_empty_tests_dir tests_dir).
  - reflexivity.
  - intros H. symmetry in H. exact (tests_dir_is_not_the_image H).
Defined.

Lemma picture_written_by_a_working_encoder_passes :
  outcome_of ((create_test_image (pillow_writing 1500) "out.png";;
               analyze_test_image "out.png") ∅) = Returns true.
Proof.
  apply (proj1 (generated_image_passes_the_analysis (pillow_writing 1500) "out.png" ∅)
           DefaultFont eq_refl).
  exists (stored 1500 (finished_picture (Some DefaultFont))).
  eexists _, _.
  split; [reflexivity|]. split; [discriminate|]. split; [reflexivity|].
  split; reflexivity.
Defined.

Lemma read_only_disk_and_missing_font_end_main_with_the_error :
  (outcome_of (main pillow_read_only fs_empty_tests_dir)
     = Raises (OSError ("[Errno 30] Read-only file system: '" ++ test_image_path ++ "'")) /\
   state_of (main pillow_read_only fs_empty_tests_dir) = fs_empty_tests_dir) /\
  (outcome_of (main (pillow_without_font 1500) fs_empty_tests_dir)
     = Raises (OSError "cannot open resource") /\
   calls (trace_of (main (pillow_without_font 1500) fs_empty_tests_dir)) = []).
Proof.
  split.
  - destruct (proj1 (main_lets_a_failed_generation_through pillow_read_only
                       fs_empty_tests_dir eq_refl ltac:(vm_compute; eauto))
                DefaultFont
                (OSError ("[Errno 30] Read-only file system: '" ++ test_image_path ++ "'"))
                eq_refl)
      as (Ho & _ & Hs & _).
    + left. eexists. split; reflexivity.
    + split; assumption.
  - destruct (proj2 (main_lets_a_failed_generation_through (pillow_without_font 1500)
                       fs_empty_tests_dir eq_refl ltac:(vm_compute; eauto))
                "cannot open resource" eq_refl)
      as (Ho & _ & _ & Hc).
    split; assumption.
Defined.

Lemma empty_file_system_stops_main :
  outcome_of (main (pillow_writing 1500) ∅) = Raises (SystemExit 1) /\
  calls (trace_of (main (pillow_writing 1500) ∅)) = [].
Proof.
  destruct (main_stops_without_the_test_directory (pillow_writing 1500) ∅) as (Ho & Hc & _).
  - reflexivity.
  - split; assumption.
Defined.

End ImageExtra.

(* ================================================================== *)
(** * The authentication probe: further properties *)
(* ================================================================== *)

Module AuthExtra.
Import Py PyFacts StringFacts AuthProbe AuthSpec AuthMore.

(** ** Slicing a token for the log *)






Section WithServer.
Variable server : Type.
Variable handle : server -> request -> server * reply.
Variable repr : pyval -> string.

Ltac unfold_probe :=
  unfold script, test_auth, requests_post, requests_get, send, exchange,
    first_line_break, first_latin1_error, response_json,
    py_get, py_slice_to, login_reply, login_request, repositories_request,
    try_except, bind, print, call, emit, get, put, ret, raise in *;
  cbv beta iota in *.

Ltac split_cases :=
  repeat (cbv beta iota;
          match goal with
          | |- context [match ?x with _ => _ end] =>
              lazymatch x with
              | context [match _ with _ => _ end] => fail
              | _ => destruct x
              end
          end).

(** X16: [test_auth] never retries. *)
Theorem test_auth_sends_at_most_two_requests srv :
  requests_sent (trace_of (test_auth server handle repr srv)) = [login_request] \/
  exists headers,
    requests_sent (trace_of (test_auth server handle repr srv)) =
      [login_request; GET (api_base ++ "/repositories") headers].
Proof.
  unfold_probe. unfold trace_of.
  split_cases; cbn [fst]; simpl; solve [now left | right; eexists; reflexivity].
Qed.







End WithServer.

(** ** The probe against concrete servers, continued *)




End AuthExtra.
